(** * Smart-Gabagool: position arithmetic, state store, accumulator,
      equalizer and risk engine

    A shallow embedding of the trading core found under
    [backend/src/models/position.py] and [backend/src/core/*.py].

    Conventions of the embedding.
    - Python's [Decimal] values are rationals [Q].  The first part of the
      development reads decimal arithmetic as exact arithmetic, and states
      equalities between amounts with [==].  Module [Runtime] repeats the
      functions with the rounding of the arithmetic context (28
      significant digits, ties to even) and with the interpreter's bound on
      nested calls.
    - The Redis server is a record holding the keys the core uses; the
      sorted set of trades is a list kept in ascending (score, member) order.
    - Everything the environment decides (the venue's answers, writes of
      other clients between WATCH and EXEC, the clock, fresh ids) is an
      explicit input of the function that consumes it. *)

From Stdlib Require Import QArith Qabs Qround Qpower ZArith List String Bool.
From Stdlib Require Import Lia Lqa.
From Stdlib Require Import Permutation Sorted.
Import ListNotations.

Local Open Scope Q_scope.

(** ** Decimal: comparisons and truthiness as Python evaluates them *)

Module Decimal.

(** [a < b] on decimals, as a boolean. *)
Definition ltb (a b : Q) : bool := negb (Qle_bool b a).

(** [bool(d)]: a [Decimal] is falsy exactly when it is zero. *)
Definition truthy (d : Q) : bool := negb (Qeq_bool d 0).

(** [bool(x)] for an [Optional[Decimal]]: [None] and zero are both falsy. *)
Definition opt_truthy (o : option Q) : bool :=
  match o with
  | Some d => truthy d
  | None => false
  end.

(** Python's [min(a, b)]: the first argument unless the second is smaller. *)
Definition min (a b : Q) : Q := if ltb b a then b else a.

(** Python's [max(a, b)], used only to phrase properties. *)
Definition max (a b : Q) : Q := if ltb a b then b else a.

(** *** The arithmetic context

    The source never touches the context, so every [+], [-], [*], [/],
    unary minus and [abs] on decimals returns the exact result rounded to
    28 significant digits, ties to the even neighbour (ROUND_HALF_EVEN).
    Comparisons, [min], [max] and the conversions from and to strings are
    exact.  Exponents are not bounded here; the context's limits
    (10^-999999 and 10^999999) are out of reach of prices and share
    counts. *)

(** The precision of the default context. *)
Definition prec : Z := 28.

(** Powers of ten. *)
Definition pow10 (e : Z) : Q := 10 ^ e.

(** The number of decimal digits of a positive integer, found in at most
    [fuel] divisions by ten. *)
Fixpoint digits_upto (fuel : nat) (n : Z) : Z :=
  match fuel with
  | O => 0
  | S fuel => if (n <? 10)%Z then 1 else (1 + digits_upto fuel (n / 10))%Z
  end.

Definition digits (n : Z) : Z := digits_upto (S (Z.to_nat (Z.log2 n))) n.

(** [adjusted()] of a positive value: the exponent of its leading digit. *)
Definition adjusted (q : Q) : Z :=
  let g := (digits (Qnum q) - digits (Zpos (Qden q)))%Z in
  if Qle_bool (pow10 g) q then g else (g - 1)%Z.

(** ROUND_HALF_EVEN to an integer. *)
Definition round_half_even (m : Q) : Z :=
  let f := Qfloor m in
  match Qcompare (m - inject_Z f) (1 # 2) with
  | Lt => f
  | Gt => (f + 1)%Z
  | Eq => if Z.even f then f else (f + 1)%Z
  end.

(** A positive value rounded to [prec] significant digits. *)
Definition round_pos (q : Q) : Q :=
  let e := (adjusted q - (prec - 1))%Z in
  inject_Z (round_half_even (q / pow10 e)) * pow10 e.

(** What the context does to the exact result of an operation. *)
Definition round (q : Q) : Q :=
  match Qcompare q 0 with
  | Eq => 0
  | Gt => round_pos q
  | Lt => - round_pos (- q)
  end.

(** Half a unit in the last kept digit, relative to the leading one:
    5E-28. *)
Definition unit_roundoff : Q := 0.0000000000000000000000000005.

Definition add (a b : Q) : Q := round (a + b).
Definition sub (a b : Q) : Q := round (a - b).
Definition mul (a b : Q) : Q := round (a * b).
Definition div (a b : Q) : Q := round (a / b).
Definition neg (a : Q) : Q := round (- a).
Definition abs (a : Q) : Q := round (Qabs a).

End Decimal.

(** ** models/position.py *)

Inductive Side : Type := YES | NO.

(** [class Position].  The field [last_updated] carries no arithmetic and is
    left out. *)
Record Position : Type := mkPosition {
  qty_yes : Q;
  cost_yes : Q;
  avg_yes : Q;
  qty_no : Q;
  cost_no : Q;
  avg_no : Q;
  pair_cost : Q;
  locked_profit : Q;
  delta : Q
}.

(** [Position.calculate_averages], for one side. *)
Definition calculate_averages (qty cost : Q) : Q :=
  if Decimal.ltb 0 qty then cost / qty else 0.

(** [Position.calculate_delta]. *)
Definition calculate_delta (qy qn : Q) : Q := qy - qn.

(** [Position.calculate_pair_cost]. *)
Definition calculate_pair_cost (ay an : Q) : Q := ay + an.

(** [Position.calculate_locked_profit]. *)
Definition calculate_locked_profit (qy qn pc : Q) : Q :=
  let paired_qty := Decimal.min qy qn in
  if Decimal.ltb 0 paired_qty && Decimal.ltb pc 1.00
  then paired_qty * (1.00 - pc)
  else 0.

(** The constructor of the model, called on a keyword dictionary [d].
    Fields are validated in declaration order; every validator is declared
    [always=True] and ignores the incoming value, so the five derived
    fields of the result depend on the four primaries of [d] alone. *)
Definition Position_init (d : Position) : Position :=
  let qy := qty_yes d in
  let cy := cost_yes d in
  let ay := calculate_averages qy cy in
  let qn := qty_no d in
  let cn := cost_no d in
  let an := calculate_averages qn cn in
  let pc := calculate_pair_cost ay an in
  let lp := calculate_locked_profit qy qn pc in
  let dl := calculate_delta qy qn in
  mkPosition qy cy ay qn cn an pc lp dl.

(** [Position()]: every field defaults to zero before validation. *)
Definition Position_default : Position :=
  Position_init (mkPosition 0 0 0 0 0 0 0 0 0).

(** Attribute assignment [position.qty_S += dq; position.cost_S += dc];
    the model does not validate on assignment, so derived fields stay
    stale until the next construction. *)
Definition add_primaries (side : Side) (dq dc : Q) (p : Position) : Position :=
  match side with
  | YES =>
      mkPosition (qty_yes p + dq) (cost_yes p + dc) (avg_yes p)
                 (qty_no p) (cost_no p) (avg_no p)
                 (pair_cost p) (locked_profit p) (delta p)
  | NO =>
      mkPosition (qty_yes p) (cost_yes p) (avg_yes p)
                 (qty_no p + dq) (cost_no p + dc) (avg_no p)
                 (pair_cost p) (locked_profit p) (delta p)
  end.

(** [class OrderBookEntry]. *)
Record OrderBookEntry : Type := mkEntry {
  price : Q;
  size : Q
}.

(** [class OrderBook] (without its timestamp). *)
Record OrderBook : Type := mkOrderBook {
  yes_bids : list OrderBookEntry;
  yes_asks : list OrderBookEntry;
  no_bids : list OrderBookEntry;
  no_asks : list OrderBookEntry
}.

(** [entries[0].price if entries else None]. *)
Definition best_price (entries : list OrderBookEntry) : option Q :=
  match entries with
  | e :: _ => Some (price e)
  | [] => None
  end.

Definition get_best_ask_yes (ob : OrderBook) : option Q := best_price (yes_asks ob).
Definition get_best_ask_no (ob : OrderBook) : option Q := best_price (no_asks ob).
Definition get_best_bid_yes (ob : OrderBook) : option Q := best_price (yes_bids ob).
Definition get_best_bid_no (ob : OrderBook) : option Q := best_price (no_bids ob).

Inductive BookSide : Type := BID | ASK.

(** [OrderBook.get_depth]: the sizes of the first [max_levels] entries. *)
Definition get_depth (ob : OrderBook) (side : Side) (bid_or_ask : BookSide)
    (max_levels : nat) : Q :=
  let entries :=
    match side, bid_or_ask with
    | YES, BID => yes_bids ob
    | YES, ASK => yes_asks ob
    | NO, BID => no_bids ob
    | NO, ASK => no_asks ob
    end in
  fold_left (fun total_size entry => total_size + size entry)
            (firstn max_levels entries) 0.

(** [class Trade].  The timestamp is kept as the integer number of
    microseconds since the epoch, the resolution of [datetime]. *)
Record Trade : Type := mkTrade {
  trade_id : string;
  timestamp : Z;
  trade_side : Side;
  trade_price : Q;
  trade_qty : Q;
  resulting_pair_cost : Q;
  resulting_delta : Q;
  order_id : option string;
  trade_market_id : string
}.

(** [class MarketInfo], restricted to the fields the core reads. *)
Record MarketInfo : Type := mkMarketInfo {
  market_id : string;
  token_id_yes : string;
  token_id_no : string
}.

(** ** config.py: the trading parameters *)

Record Config : Type := mkConfig {
  max_unhedged_delta : Q;
  profit_margin : Q;
  min_liquidity_multiplier : Q;
  bailout_stop_loss_percent : Q;
  trade_size : Q
}.

(** [Config.get_profit_target]. *)
Definition get_profit_target (c : Config) : Q := 1.00 - profit_margin c.

(** The defaults of [get_config]. *)
Definition default_config : Config := mkConfig 50 0.02 3.0 2.0 10.

(** ** The Redis server, as far as the core uses it *)

Module ZSet.

(** A sorted set: (score, member) pairs, members unique, kept in ascending
    order of score and, for equal scores, of member. *)
Definition t : Type := list (Z * string).

Definition entry_ltb (a b : Z * string) : bool :=
  (fst a <? fst b)%Z || ((fst a =? fst b)%Z && String.ltb (snd a) (snd b)).

Fixpoint insert (e : Z * string) (l : t) : t :=
  match l with
  | [] => [e]
  | x :: rest => if entry_ltb e x then e :: l else x :: insert e rest
  end.

Definition remove_member (member : string) (l : t) : t :=
  filter (fun x => negb (String.eqb (snd x) member)) l.

(** [ZADD key score member]: a member already present is moved to its
    new score. *)
Definition zadd (l : t) (member : string) (score : Z) : t :=
  insert (score, member) (remove_member member l).

(** [ZREMRANGEBYRANK key start stop]: negative ranks count from the end;
    the range is clamped to the set and an empty range removes nothing. *)
Definition zremrangebyrank (l : t) (start stop : Z) : t :=
  let llen := Z.of_nat (List.length l) in
  let start := if (start <? 0)%Z then (llen + start)%Z else start in
  let stop := if (stop <? 0)%Z then (llen + stop)%Z else stop in
  let start := if (start <? 0)%Z then 0%Z else start in
  if ((start >? stop) || (start >=? llen))%Z then l
  else
    let stop := if (stop >=? llen)%Z then (llen - 1)%Z else stop in
    firstn (Z.to_nat start) l ++ skipn (Z.to_nat (stop + 1)) l.

(** [ZCARD key]. *)
Definition zcard (l : t) : nat := List.length l.

(** Ascending by score: the order in which ranks are assigned. *)
Fixpoint sorted (l : t) : Prop :=
  match l with
  | [] => True
  | x :: rest => Forall (fun y => (fst x <= fst y)%Z) rest /\ sorted rest
  end.

End ZSet.

Record Redis : Type := mkRedis {
  POSITION_KEY : option Position;
  TRADES_KEY : ZSet.t;
  MARKET_KEY : option MarketInfo;
  HALT_KEY : bool
}.

Definition set_position (r : Redis) (p : Position) : Redis :=
  mkRedis (Some p) (TRADES_KEY r) (MARKET_KEY r) (HALT_KEY r).

Definition set_trades (r : Redis) (l : ZSet.t) : Redis :=
  mkRedis (POSITION_KEY r) l (MARKET_KEY r) (HALT_KEY r).

Definition empty_redis : Redis := mkRedis None [] None false.

(** ** The venue, as far as the core uses it *)

Inductive OrderSide : Type := BUY | SELL.

(** The arguments of one call of [place_limit_order]. *)
Record Order : Type := mkOrder {
  o_token_id : string;
  o_side : OrderSide;
  o_price : Q;
  o_size : Q;
  o_post_only : bool
}.

(** The state the core acts on: the store, and the orders sent to the
    venue so far, oldest first. *)
Record World : Type := mkWorld {
  redis : Redis;
  orders : list Order
}.

(** Sending an order; the venue's answer is an input of the caller. *)
Definition place_limit_order (w : World) (token_id : string) (side : OrderSide)
    (price size : Q) (post_only : bool) : World :=
  mkWorld (redis w) (orders w ++ [mkOrder token_id side price size post_only]).

(** [bool(order_id)] for an [Optional[str]]. *)
Definition order_id_truthy (o : option string) : bool :=
  match o with
  | Some s => negb (String.eqb s EmptyString)
  | None => false
  end.

(** What the environment supplies while one trade is executed: the venue's
    answer to the order, the values other clients write to the position key
    between WATCH and EXEC (one per failed attempt), the clock and a fresh
    identifier. *)
Record TradeEnv : Type := mkTradeEnv {
  venue_order_id : option string;
  conflicts : list Position;
  utcnow : Z;
  uuid4 : string
}.

(** The dictionary returned by [Accumulator.calculate_state]. *)
Record StateInfo : Type := mkStateInfo {
  si_avg_yes : Q;
  si_avg_no : Q;
  si_pair_cost : Q;
  si_delta : Q;
  si_locked_profit : Q
}.

(** The dictionaries built by [Accumulator._scan_and_execute]. *)
Record Opportunity : Type := mkOpportunity {
  opp_side : Side;
  opp_price : Q;
  expected_pair_cost : Q
}.

(** One turn of the equalizer's [while]: the flag [is_running] as read at
    the loop test, and the environment of the trade attempted. *)
Record LoopEnv : Type := mkLoopEnv {
  is_running : bool;
  loop_trade : TradeEnv
}.

(** What the environment supplies to one [_market_sell]. *)
Record SellEnv : Type := mkSellEnv {
  order_book_data : list OrderBookEntry;
  sell_order_id : option string;
  sell_conflicts : list Position
}.

(** The dictionaries appended by [Accumulator.scan_opportunities]. *)
Record ListedOpportunity : Type := mkListed {
  lo_side : Side;
  lo_price : Q;
  lo_expected_pair_cost : Q;
  lo_profit : Q
}.

(** * The core under the interpreter's arithmetic and stack

    The definitions of this module repeat the functions of the core whose
    results depend on two limits of the interpreter: every arithmetic
    operation on decimals is rounded as the context prescribes, and the
    retry of [update_position_atomic] is a nested call, of which only so
    many fit on the stack. *)

Module Runtime.

(** ** models/position.py *)

(** [Position.calculate_averages], for one side. *)
Definition calculate_averages (qty cost : Q) : Q :=
  if Decimal.ltb 0 qty then Decimal.div cost qty else 0.

(** [Position.calculate_delta]. *)
Definition calculate_delta (qy qn : Q) : Q := Decimal.sub qy qn.

(** [Position.calculate_pair_cost]. *)
Definition calculate_pair_cost (ay an : Q) : Q := Decimal.add ay an.

(** [Position.calculate_locked_profit]. *)
Definition calculate_locked_profit (qy qn pc : Q) : Q :=
  let paired_qty := Decimal.min qy qn in
  if Decimal.ltb 0 paired_qty && Decimal.ltb pc 1.00
  then Decimal.mul paired_qty (Decimal.sub 1.00 pc)
  else 0.

(** The constructor of the model, called on a keyword dictionary [d]. *)
Definition Position_init (d : Position) : Position :=
  let qy := qty_yes d in
  let cy := cost_yes d in
  let ay := calculate_averages qy cy in
  let qn := qty_no d in
  let cn := cost_no d in
  let an := calculate_averages qn cn in
  let pc := calculate_pair_cost ay an in
  let lp := calculate_locked_profit qy qn pc in
  let dl := calculate_delta qy qn in
  mkPosition qy cy ay qn cn an pc lp dl.

(** [Position()]. *)
Definition Position_default : Position :=
  Position_init (mkPosition 0 0 0 0 0 0 0 0 0).

(** [position.qty_S += dq; position.cost_S += dc]. *)
Definition add_primaries (side : Side) (dq dc : Q) (p : Position) : Position :=
  match side with
  | YES =>
      mkPosition (Decimal.add (qty_yes p) dq) (Decimal.add (cost_yes p) dc)
                 (avg_yes p) (qty_no p) (cost_no p) (avg_no p)
                 (pair_cost p) (locked_profit p) (delta p)
  | NO =>
      mkPosition (qty_yes p) (cost_yes p) (avg_yes p)
                 (Decimal.add (qty_no p) dq) (Decimal.add (cost_no p) dc)
                 (avg_no p) (pair_cost p) (locked_profit p) (delta p)
  end.

(** [OrderBook.get_depth]. *)
Definition get_depth (ob : OrderBook) (side : Side) (bid_or_ask : BookSide)
    (max_levels : nat) : Q :=
  let entries :=
    match side, bid_or_ask with
    | YES, BID => yes_bids ob
    | YES, ASK => yes_asks ob
    | NO, BID => no_bids ob
    | NO, ASK => no_asks ob
    end in
  fold_left (fun total_size entry => Decimal.add total_size (size entry))
            (firstn max_levels entries) 0.

(** [Config.get_profit_target]. *)
Definition get_profit_target (c : Config) : Q :=
  Decimal.sub 1.00 (profit_margin c).

Section Functions.

Variable json_dumps : Trade -> string.
Variable config : Config.

(** ** core/state_manager.py *)

(** [StateManager.get_position]. *)
Definition get_position (r : Redis) : Position :=
  match POSITION_KEY r with
  | Some position_dict => Position_init position_dict
  | None => Position_default
  end.

(** [StateManager.update_position_atomic].  Each element of [conflicts] is
    a write by another client that lands after this attempt's WATCH, so
    that EXEC raises [WatchError] and the handler calls the method again,
    from inside the pending call.  [stack_room] is the number of such
    nested calls the interpreter's stack still has room for when the
    method is entered (the limit is 1000 frames, which the source never
    raises); a retry beyond it raises [RecursionError], which no handler
    of the method catches, so the call ends without a position and
    without a write of its own.  The third component of the result counts
    the nested calls made. *)
Fixpoint update_position_atomic (stack_room : nat) (r : Redis)
    (conflicts : list Position) (side : Side) (qty_delta cost_delta : Q)
    {struct conflicts} : Redis * option Position * nat :=
  let position := get_position r in
  let position := add_primaries side qty_delta cost_delta position in
  let position := Position_init position in
  match conflicts with
  | [] => (set_position r position, Some position, O)
  | other :: later =>
      match stack_room with
      | O => (set_position r other, None, O)
      | S stack_room =>
          let '(r', result, depth) :=
            update_position_atomic stack_room (set_position r other) later
                                   side qty_delta cost_delta in
          (r', result, S depth)
      end
  end.

(** [StateManager.add_trade]. *)
Definition add_trade (r : Redis) (trade : Trade) : Redis :=
  let timestamp := timestamp trade in
  let added := ZSet.zadd (TRADES_KEY r) (json_dumps trade) timestamp in
  set_trades r (ZSet.zremrangebyrank added 0 (-1001)).

(** ** core/accumulator.py *)

(** [Accumulator.calculate_state]. *)
Definition calculate_state (position : Position) : StateInfo :=
  let avg_yes :=
    if Decimal.ltb 0 (qty_yes position)
    then Decimal.div (cost_yes position) (qty_yes position) else 0 in
  let avg_no :=
    if Decimal.ltb 0 (qty_no position)
    then Decimal.div (cost_no position) (qty_no position) else 0 in
  let pair_cost := Decimal.add avg_yes avg_no in
  let delta := Decimal.sub (qty_yes position) (qty_no position) in
  let paired_qty := Decimal.min (qty_yes position) (qty_no position) in
  let locked_profit :=
    if Decimal.ltb 0 paired_qty && Decimal.ltb pair_cost 1.00
    then Decimal.mul paired_qty (Decimal.sub 1.00 pair_cost) else 0 in
  mkStateInfo avg_yes avg_no pair_cost delta locked_profit.

(** [Accumulator._check_constraints]. *)
Definition _check_constraints (side : Side) (position : Position)
    (order_book : OrderBook) : bool :=
  let current_delta := delta position in
  let trade_size := trade_size config in
  let new_delta :=
    match side with
    | YES => Decimal.add current_delta trade_size
    | NO => Decimal.sub current_delta trade_size
    end in
  if Decimal.ltb (max_unhedged_delta config) (Decimal.abs new_delta)
  then false
  else
    let opposite_side := match side with YES => NO | NO => YES end in
    let required_liquidity :=
      Decimal.mul trade_size (min_liquidity_multiplier config) in
    let available_liquidity := get_depth order_book opposite_side ASK 5 in
    if Decimal.ltb available_liquidity required_liquidity then false
    else true.

(** [Accumulator.execute_trade].  A [RecursionError] out of the position
    update is caught by the method's [except Exception]: the order has
    been sent, nothing is recorded and [None] is returned. *)
Definition execute_trade (stack_room : nat)
    (current_market : option MarketInfo) (w : World)
    (env : TradeEnv) (side : Side) (price qty : Q) : World * option Trade :=
  match current_market with
  | None => (w, None)
  | Some market =>
      let token_id :=
        match side with
        | YES => token_id_yes market
        | NO => token_id_no market
        end in
      let w := place_limit_order w token_id BUY price qty true in
      let order_id := venue_order_id env in
      if negb (order_id_truthy order_id) then (w, None)
      else
        let cost := Decimal.mul price qty in
        let '(r, updated_position, _) :=
          update_position_atomic stack_room (redis w) (conflicts env)
                                 side qty cost in
        match updated_position with
        | None => (mkWorld r (orders w), None)
        | Some updated_position =>
            let state := calculate_state updated_position in
            let trade :=
              mkTrade (uuid4 env) (utcnow env) side price qty
                      (si_pair_cost state) (si_delta state)
                      order_id (market_id market) in
            (mkWorld (add_trade r trade) (orders w), Some trade)
        end
  end.

(** [Accumulator._execute_opportunity]. *)
Definition _execute_opportunity (stack_room : nat)
    (current_market : option MarketInfo)
    (w : World) (env : TradeEnv) (opportunity : Opportunity)
    (position : Position) (order_book : OrderBook) : World :=
  let side := opp_side opportunity in
  let price := opp_price opportunity in
  if negb (_check_constraints side position order_book) then w
  else fst (execute_trade stack_room current_market w env side price
                          (trade_size config)).

(** The two candidate dictionaries of [_scan_and_execute]. *)
Definition opportunity_yes (avg_no ask_yes : Q) : option Opportunity :=
  if Decimal.ltb (Decimal.add ask_yes avg_no) (get_profit_target config)
  then Some (mkOpportunity YES ask_yes (Decimal.add ask_yes avg_no))
  else None.

Definition opportunity_no (avg_yes ask_no : Q) : option Opportunity :=
  if Decimal.ltb (Decimal.add ask_no avg_yes) (get_profit_target config)
  then Some (mkOpportunity NO ask_no (Decimal.add ask_no avg_yes))
  else None.

(** [Accumulator._scan_and_execute]. *)
Definition _scan_and_execute (stack_room : nat)
    (current_market : option MarketInfo)
    (w : World) (order_book : OrderBook) (env : TradeEnv) : World :=
  match current_market with
  | None => w
  | Some _ =>
      let position := get_position (redis w) in
      match yes_asks order_book, no_asks order_book with
      | [], _ | _, [] => w
      | _ :: _, _ :: _ =>
          let state_info := calculate_state position in
          let avg_yes := si_avg_yes state_info in
          let avg_no := si_avg_no state_info in
          match get_best_ask_yes order_book, get_best_ask_no order_book with
          | Some ask_yes, Some ask_no =>
              if negb (Decimal.truthy ask_yes) || negb (Decimal.truthy ask_no)
              then w
              else
                match opportunity_yes avg_no ask_yes,
                      opportunity_no avg_yes ask_no with
                | Some oy, Some on =>
                    if Decimal.ltb (expected_pair_cost oy) (expected_pair_cost on)
                    then _execute_opportunity stack_room current_market w env
                                              oy position order_book
                    else _execute_opportunity stack_room current_market w env
                                              on position order_book
                | Some oy, None =>
                    _execute_opportunity stack_room current_market w env
                                         oy position order_book
                | None, Some on =>
                    _execute_opportunity stack_room current_market w env
                                         on position order_book
                | None, None => w
                end
          | _, _ => w
          end
      end
  end.

(** [Accumulator.scan_opportunities]. *)
Definition scan_opportunities (position : Position) (order_book : OrderBook)
    : list ListedOpportunity :=
  let state := calculate_state position in
  let avg_yes := si_avg_yes state in
  let avg_no := si_avg_no state in
  let ask_yes := get_best_ask_yes order_book in
  let ask_no := get_best_ask_no order_book in
  if negb (Decimal.opt_truthy ask_yes) || negb (Decimal.opt_truthy ask_no)
  then []
  else
    match ask_yes, ask_no with
    | Some ask_yes, Some ask_no =>
        let target_cost := get_profit_target config in
        (if Decimal.ltb (Decimal.add ask_yes avg_no) target_cost
         then [mkListed YES ask_yes (Decimal.add ask_yes avg_no)
                        (Decimal.sub target_cost (Decimal.add ask_yes avg_no))]
         else []) ++
        (if Decimal.ltb (Decimal.add ask_no avg_yes) target_cost
         then [mkListed NO ask_no (Decimal.add ask_no avg_yes)
                        (Decimal.sub target_cost (Decimal.add ask_no avg_yes))]
         else [])
    | _, _ => []
    end.

(** ** core/equalizer.py *)

(** The [while remaining > 0 and self.is_running] loop of
    [_rebalance_position], one element of [envs] per turn. *)
Fixpoint rebalance_loop (stack_room : nat)
    (current_market : option MarketInfo)
    (envs : list LoopEnv) (w : World) (lagging_side : Side)
    (bid_price chunk_size remaining : Q) : World :=
  match envs with
  | [] => w
  | e :: later =>
      if Decimal.ltb 0 remaining && is_running e then
        let trade_qty := Decimal.min remaining chunk_size in
        let '(w', trade) :=
          execute_trade stack_room current_market w (loop_trade e)
                        lagging_side bid_price trade_qty in
        match trade with
        | Some _ =>
            rebalance_loop stack_room current_market later w' lagging_side
                           bid_price chunk_size
                           (Decimal.sub remaining trade_qty)
        | None =>
            rebalance_loop stack_room current_market later w' lagging_side
                           bid_price chunk_size remaining
        end
      else w
  end.

(** [Equalizer._rebalance_position]. *)
Definition _rebalance_position (stack_room : nat)
    (current_market : option MarketInfo)
    (w : World) (envs : list LoopEnv) (lagging_side : Side) (target_qty : Q)
    (position : Position) (order_book : OrderBook) : World :=
  let state := calculate_state position in
  let avg_yes := si_avg_yes state in
  let avg_no := si_avg_no state in
  let '(opposite_avg, best_ask) :=
    match lagging_side with
    | YES => (avg_no, get_best_ask_yes order_book)
    | NO => (avg_yes, get_best_ask_no order_book)
    end in
  match best_ask with
  | None => w
  | Some best_ask =>
      if negb (Decimal.truthy best_ask) then w
      else
        let max_price := Decimal.sub 0.99 opposite_avg in
        if Qle_bool max_price 0 then w
        else
          let bid_price := Decimal.min best_ask max_price in
          let chunk_size := Decimal.min target_qty (trade_size config) in
          rebalance_loop stack_room current_market envs w lagging_side
                         bid_price chunk_size target_qty
  end.

(** [Equalizer._check_and_rebalance]. *)
Definition _check_and_rebalance (stack_room : nat)
    (current_market : option MarketInfo)
    (w : World) (order_book : OrderBook) (envs : list LoopEnv) : World :=
  let position := get_position (redis w) in
  let delta := delta position in
  if Decimal.ltb (Decimal.abs delta) 1 then w
  else
    match MARKET_KEY (redis w) with
    | None => w
    | Some _ =>
        let lagging_side := if Decimal.ltb 0 delta then NO else YES in
        let target_qty := Decimal.abs delta in
        _rebalance_position stack_room current_market w envs lagging_side
                            target_qty position order_book
    end.

(** ** core/risk_engine.py *)

(** [RiskEngine._market_sell].  A [RecursionError] out of the position
    update is caught by the method's [except Exception]. *)
Definition _market_sell (stack_room : nat) (w : World) (env : SellEnv)
    (token_id : string) (qty : Q) (side : Side) : World :=
  match order_book_data env with
  | [] => w
  | top :: _ =>
      let best_bid := price top in
      let w := place_limit_order w token_id SELL best_bid qty false in
      if order_id_truthy (sell_order_id env) then
        let '(r, _, _) :=
          update_position_atomic stack_room (redis w) (sell_conflicts env)
                                 side (Decimal.neg qty)
                                 (Decimal.neg (Decimal.mul best_bid qty)) in
        mkWorld r (orders w)
      else w
  end.

End Functions.

End Runtime.

Section Core.

Variable json_dumps : Trade -> string.
Variable config : Config.

(** *** core/state_manager.py *)

(** [StateManager.get_position]. *)
Definition get_position (r : Redis) : Position :=
  match POSITION_KEY r with
  | Some position_dict => Position_init position_dict
  | None => Position_default
  end.

(** [StateManager.update_position_atomic].  Each element of [conflicts] is
    a write by another client that lands after this attempt's WATCH, so
    that EXEC raises [WatchError] and the method calls itself again.  The
    third component of the result counts these nested calls. *)
Fixpoint update_position_atomic (r : Redis) (conflicts : list Position)
    (side : Side) (qty_delta cost_delta : Q) : Redis * Position * nat :=
  let position := get_position r in
  let position := add_primaries side qty_delta cost_delta position in
  let position := Position_init position in
  match conflicts with
  | [] => (set_position r position, position, O)
  | other :: later =>
      let '(r', result, depth) :=
        update_position_atomic (set_position r other) later
                               side qty_delta cost_delta in
      (r', result, S depth)
  end.

(** [StateManager.add_trade]. *)
Definition add_trade (r : Redis) (trade : Trade) : Redis :=
  let timestamp := timestamp trade in
  let added := ZSet.zadd (TRADES_KEY r) (json_dumps trade) timestamp in
  set_trades r (ZSet.zremrangebyrank added 0 (-1001)).

(** [StateManager.get_trade_count]. *)
Definition get_trade_count (r : Redis) : nat := ZSet.zcard (TRADES_KEY r).

(** [StateManager.set_halt_flag]. *)
Definition set_halt_flag (r : Redis) (halted : bool) : Redis :=
  mkRedis (POSITION_KEY r) (TRADES_KEY r) (MARKET_KEY r) halted.

(** *** core/accumulator.py *)

(** [Accumulator.calculate_state]. *)
Definition calculate_state (position : Position) : StateInfo :=
  let avg_yes :=
    if Decimal.ltb 0 (qty_yes position)
    then cost_yes position / qty_yes position else 0 in
  let avg_no :=
    if Decimal.ltb 0 (qty_no position)
    then cost_no position / qty_no position else 0 in
  let pair_cost := avg_yes + avg_no in
  let delta := qty_yes position - qty_no position in
  let paired_qty := Decimal.min (qty_yes position) (qty_no position) in
  let locked_profit :=
    if Decimal.ltb 0 paired_qty && Decimal.ltb pair_cost 1.00
    then paired_qty * (1.00 - pair_cost) else 0 in
  mkStateInfo avg_yes avg_no pair_cost delta locked_profit.

(** [Accumulator._check_constraints]. *)
Definition _check_constraints (side : Side) (position : Position)
    (order_book : OrderBook) : bool :=
  let current_delta := delta position in
  let trade_size := trade_size config in
  let new_delta :=
    match side with
    | YES => current_delta + trade_size
    | NO => current_delta - trade_size
    end in
  if Decimal.ltb (max_unhedged_delta config) (Qabs new_delta) then false
  else
    let opposite_side := match side with YES => NO | NO => YES end in
    let required_liquidity := trade_size * min_liquidity_multiplier config in
    let available_liquidity := get_depth order_book opposite_side ASK 5 in
    if Decimal.ltb available_liquidity required_liquidity then false
    else true.

(** [Accumulator.execute_trade]. *)
Definition execute_trade (current_market : option MarketInfo) (w : World)
    (env : TradeEnv) (side : Side) (price qty : Q) : World * option Trade :=
  match current_market with
  | None => (w, None)
  | Some market =>
      let token_id :=
        match side with
        | YES => token_id_yes market
        | NO => token_id_no market
        end in
      let w := place_limit_order w token_id BUY price qty true in
      let order_id := venue_order_id env in
      if negb (order_id_truthy order_id) then (w, None)
      else
        let cost := price * qty in
        let '(r, updated_position, _) :=
          update_position_atomic (redis w) (conflicts env) side qty cost in
        let state := calculate_state updated_position in
        let trade :=
          mkTrade (uuid4 env) (utcnow env) side price qty
                  (si_pair_cost state) (si_delta state)
                  order_id (market_id market) in
        (mkWorld (add_trade r trade) (orders w), Some trade)
  end.

(** [Accumulator._execute_opportunity]. *)
Definition _execute_opportunity (current_market : option MarketInfo)
    (w : World) (env : TradeEnv) (opportunity : Opportunity)
    (position : Position) (order_book : OrderBook) : World :=
  let side := opp_side opportunity in
  let price := opp_price opportunity in
  if negb (_check_constraints side position order_book) then w
  else fst (execute_trade current_market w env side price (trade_size config)).

(** The two candidate dictionaries of [_scan_and_execute]. *)
Definition opportunity_yes (avg_no ask_yes : Q) : option Opportunity :=
  if Decimal.ltb (ask_yes + avg_no) (get_profit_target config)
  then Some (mkOpportunity YES ask_yes (ask_yes + avg_no))
  else None.

Definition opportunity_no (avg_yes ask_no : Q) : option Opportunity :=
  if Decimal.ltb (ask_no + avg_yes) (get_profit_target config)
  then Some (mkOpportunity NO ask_no (ask_no + avg_yes))
  else None.

(** [Accumulator._scan_and_execute]; [order_book] is the venue's answer to
    [get_market_order_book]. *)
Definition _scan_and_execute (current_market : option MarketInfo)
    (w : World) (order_book : OrderBook) (env : TradeEnv) : World :=
  match current_market with
  | None => w
  | Some _ =>
      let position := get_position (redis w) in
      match yes_asks order_book, no_asks order_book with
      | [], _ | _, [] => w
      | _ :: _, _ :: _ =>
          let state_info := calculate_state position in
          let avg_yes := si_avg_yes state_info in
          let avg_no := si_avg_no state_info in
          match get_best_ask_yes order_book, get_best_ask_no order_book with
          | Some ask_yes, Some ask_no =>
              if negb (Decimal.truthy ask_yes) || negb (Decimal.truthy ask_no)
              then w
              else
                match opportunity_yes avg_no ask_yes,
                      opportunity_no avg_yes ask_no with
                | Some oy, Some on =>
                    if Decimal.ltb (expected_pair_cost oy) (expected_pair_cost on)
                    then _execute_opportunity current_market w env oy
                                              position order_book
                    else _execute_opportunity current_market w env on
                                              position order_book
                | Some oy, None =>
                    _execute_opportunity current_market w env oy
                                         position order_book
                | None, Some on =>
                    _execute_opportunity current_market w env on
                                         position order_book
                | None, None => w
                end
          | _, _ => w
          end
      end
  end.

(** *** core/equalizer.py *)

(** The [while remaining > 0 and self.is_running] loop of
    [_rebalance_position], one element of [envs] per turn; the model stops
    observing when [envs] is used up. *)
Fixpoint rebalance_loop (current_market : option MarketInfo)
    (envs : list LoopEnv) (w : World) (lagging_side : Side)
    (bid_price chunk_size remaining : Q) : World :=
  match envs with
  | [] => w
  | e :: later =>
      if Decimal.ltb 0 remaining && is_running e then
        let trade_qty := Decimal.min remaining chunk_size in
        let '(w', trade) :=
          execute_trade current_market w (loop_trade e)
                        lagging_side bid_price trade_qty in
        match trade with
        | Some _ =>
            rebalance_loop current_market later w' lagging_side
                           bid_price chunk_size (remaining - trade_qty)
        | None =>
            rebalance_loop current_market later w' lagging_side
                           bid_price chunk_size remaining
        end
      else w
  end.

(** [Equalizer._rebalance_position]; [current_market] is the accumulator's,
    through which the trades are executed. *)
Definition _rebalance_position (current_market : option MarketInfo)
    (w : World) (envs : list LoopEnv) (lagging_side : Side) (target_qty : Q)
    (position : Position) (order_book : OrderBook) : World :=
  let state := calculate_state position in
  let avg_yes := si_avg_yes state in
  let avg_no := si_avg_no state in
  let '(opposite_avg, best_ask) :=
    match lagging_side with
    | YES => (avg_no, get_best_ask_yes order_book)
    | NO => (avg_yes, get_best_ask_no order_book)
    end in
  match best_ask with
  | None => w
  | Some best_ask =>
      if negb (Decimal.truthy best_ask) then w
      else
        let max_price := 0.99 - opposite_avg in
        if Qle_bool max_price 0 then w
        else
          let bid_price := Decimal.min best_ask max_price in
          let chunk_size := Decimal.min target_qty (trade_size config) in
          rebalance_loop current_market envs w lagging_side
                         bid_price chunk_size target_qty
  end.

(** [Equalizer._check_and_rebalance]. *)
Definition _check_and_rebalance (current_market : option MarketInfo)
    (w : World) (order_book : OrderBook) (envs : list LoopEnv) : World :=
  let position := get_position (redis w) in
  let delta := delta position in
  if Decimal.ltb (Qabs delta) 1 then w
  else
    match MARKET_KEY (redis w) with
    | None => w
    | Some _ =>
        let lagging_side := if Decimal.ltb 0 delta then NO else YES in
        let target_qty := Qabs delta in
        _rebalance_position current_market w envs lagging_side target_qty
                            position order_book
    end.

(** *** core/risk_engine.py *)

(** [RiskEngine._get_mid_price]. *)
Definition _get_mid_price (bids asks : list OrderBookEntry) : option Q :=
  match bids, asks with
  | [], _ | _, [] => None
  | b :: _, a :: _ =>
      let best_bid := price b in
      let best_ask := price a in
      Some ((best_bid + best_ask) / 2)
  end.

(** [RiskEngine.check_bailout_stop_loss]. *)
Definition check_bailout_stop_loss (position : Position)
    (order_book : OrderBook) : bool :=
  let mid_yes := _get_mid_price (yes_bids order_book) (yes_asks order_book) in
  let mid_no := _get_mid_price (no_bids order_book) (no_asks order_book) in
  if negb (Decimal.opt_truthy mid_yes) || negb (Decimal.opt_truthy mid_no)
  then false
  else
    match mid_yes, mid_no with
    | Some mid_yes, Some mid_no =>
        let position_value :=
          (qty_yes position * mid_yes) + (qty_no position * mid_no) in
        let position_cost := cost_yes position + cost_no position in
        let unrealized_pnl := position_value - position_cost in
        let loss_threshold :=
          position_cost * (bailout_stop_loss_percent config / 100) in
        if Decimal.ltb unrealized_pnl (- loss_threshold) then true else false
    | _, _ => false
    end.

(** [RiskEngine._market_sell]. *)
Definition _market_sell (w : World) (env : SellEnv) (token_id : string)
    (qty : Q) (side : Side) : World :=
  match order_book_data env with
  | [] => w
  | top :: _ =>
      let best_bid := price top in
      let w := place_limit_order w token_id SELL best_bid qty false in
      if order_id_truthy (sell_order_id env) then
        let '(r, _, _) :=
          update_position_atomic (redis w) (sell_conflicts env)
                                 side (- qty) (- (best_bid * qty)) in
        mkWorld r (orders w)
      else w
  end.

(** [RiskEngine.emergency_liquidation].  Cancelling the open orders only
    talks to the venue and is left out. *)
Definition emergency_liquidation (market : MarketInfo) (w : World)
    (env_yes env_no : SellEnv) : World :=
  let position := get_position (redis w) in
  let w :=
    if Decimal.ltb 0 (qty_yes position)
    then _market_sell w env_yes (token_id_yes market) (qty_yes position) YES
    else w in
  let w :=
    if Decimal.ltb 0 (qty_no position)
    then _market_sell w env_no (token_id_no market) (qty_no position) NO
    else w in
  mkWorld (set_halt_flag (redis w) true) (orders w).

(** *** Sample data used by the worked examples *)

Definition sample_market : MarketInfo :=
  mkMarketInfo "btc-15m"%string "token-yes"%string "token-no"%string.

Definition primaries (qy cy qn cn : Q) : Position :=
  mkPosition qy cy 0 qn cn 0 0 0 0.

Definition world_with (p : Position) : World :=
  mkWorld (mkRedis (Some p) [] (Some sample_market) false) [].

Definition accepted : TradeEnv :=
  mkTradeEnv (Some "order-1"%string) [] 1700000000000000%Z "trade-1"%string.

Definition rejected : TradeEnv :=
  mkTradeEnv None [] 1700000000000000%Z "trade-1"%string.

(** Both best asks at 0.40 on an empty position: two candidates with the
    same expected pair cost. *)
Definition tied_book : OrderBook :=
  mkOrderBook [mkEntry 0.39 100] [mkEntry 0.40 100]
              [mkEntry 0.39 100] [mkEntry 0.40 100].

(** The book of the cold-start scenario. *)
Definition cold_book : OrderBook :=
  mkOrderBook [mkEntry 0.54 100] [mkEntry 0.55 100]
              [mkEntry 0.39 100] [mkEntry 0.40 100].

(** A stand-in for [json.dumps] on a trade dictionary. *)
Definition sample_dumps (t : Trade) : string := trade_id t.

Definition empty_world : World := mkWorld empty_redis [].

(** A book whose best YES ask is priced at zero. *)
Definition zero_ask_book : OrderBook :=
  mkOrderBook [mkEntry 0.54 100] [mkEntry 0 100]
              [mkEntry 0.39 100] [mkEntry 0.40 100].


(** A trade whose only relevant fields are its id and its timestamp. *)
Definition sample_trade (id : string) (ts : Z) : Trade :=
  mkTrade id ts YES 0.50 10 0.50 10 (Some "order-1"%string)
          "btc-15m"%string.

(** A two-character name for the [i]-th member of a sample log. *)
Definition member_name (i : nat) : string :=
  String (Ascii.ascii_of_nat (65 + i / 64))
         (String (Ascii.ascii_of_nat (48 + Nat.modulo i 64)) EmptyString).

(** A log of [n] entries with timestamps 1 .. n. *)
Definition numbered_log (n : nat) : ZSet.t :=
  map (fun i => (Z.of_nat i, member_name i)) (seq 1 n).

(** The equalizer scenario: only NO asks, best at 0.42. *)
Definition lagging_no_book : OrderBook :=
  mkOrderBook [] [] [] [mkEntry 0.42 50].

(** The stop-loss scenario: both mids at 0.30. *)
Definition crashed_book : OrderBook :=
  mkOrderBook [mkEntry 0.29 100] [mkEntry 0.31 100]
              [mkEntry 0.29 100] [mkEntry 0.31 100].

(** A stand-in for [json.loads] that reads a member back as a trade. *)
Definition sample_loads (member : string) : option Trade :=
  Some (sample_trade member 0).

(** A balanced position whose averages do not fit 28 digits: 110 shares a
    side, bought for 11.60 and 6.10. *)
Definition recurring_position : Position := primaries 110 11.60 110 6.10.

(** Asks of 0.35 and 0.30 against [recurring_position]: the two expected
    pair costs agree as exact numbers. *)
Definition recurring_book : OrderBook :=
  mkOrderBook [mkEntry 0.34 100] [mkEntry 0.35 100]
              [mkEntry 0.29 100] [mkEntry 0.30 100].

(** A position long 100 YES whose YES average does not fit 28 digits, and
    a book whose best NO ask is above the ceiling. *)
Definition lopsided_position : Position := primaries 110 6.10 10 3.50.

Definition dear_no_book : OrderBook :=
  mkOrderBook [] [] [] [mkEntry 0.95 100].

(** [recurring_book] with only 20 shares offered on the NO side. *)
Definition recurring_thin_book : OrderBook :=
  mkOrderBook [mkEntry 0.34 100] [mkEntry 0.35 100]
              [mkEntry 0.29 100] [mkEntry 0.30 20].

(** Accessors used to phrase properties per side. *)
Definition qty_of (side : Side) (p : Position) : Q :=
  match side with YES => qty_yes p | NO => qty_no p end.

Definition cost_of (side : Side) (p : Position) : Q :=
  match side with YES => cost_yes p | NO => cost_no p end.

Definition avg_of (side : Side) (p : Position) : Q :=
  match side with YES => avg_yes p | NO => avg_no p end.

Definition opposite (side : Side) : Side :=
  match side with YES => NO | NO => YES end.

(** The value of the position key once every write of [conflicts] has
    landed: what the last, successful attempt reads. *)
Definition after_conflicts (r : Redis) (conflicts : list Position) : Redis :=
  fold_left set_position conflicts r.

(** The token traded for a side, as [execute_trade] picks it. *)
Definition token_of (market : MarketInfo) (side : Side) : string :=
  match side with YES => token_id_yes market | NO => token_id_no market end.


(** The post-only buy order [execute_trade] sends. *)
Definition buy_order (market : MarketInfo) (side : Side) (price qty : Q)
    : Order :=
  mkOrder (token_of market side) BUY price qty true.

(** ** Further functions of the state store *)

(** What [json.loads] and the rebuilding of a [Trade] give for a stored
    member; [None] when either raises. *)
Variable json_loads : string -> option Trade.


(** [StateManager.is_halted]. *)
Definition is_halted (r : Redis) : bool := HALT_KEY r.

(** [StateManager.save_market] and [StateManager.get_market]. *)
Definition save_market (r : Redis) (market : MarketInfo) : Redis :=
  mkRedis (POSITION_KEY r) (TRADES_KEY r) (Some market) (HALT_KEY r).

Definition get_market (r : Redis) : option MarketInfo := MARKET_KEY r.

(** [StateManager.clear_all]: every key is deleted. *)
Definition clear_all (r : Redis) : Redis := mkRedis None [] None false.

(** [ZREVRANGE key start stop]: ranks counted from the highest score;
    negative indexes count from the end; an empty range gives nothing. *)
Definition zrevrange (l : ZSet.t) (start stop : Z) : list string :=
  let llen := Z.of_nat (List.length l) in
  let start := if (start <? 0)%Z then (llen + start)%Z else start in
  let stop := if (stop <? 0)%Z then (llen + stop)%Z else stop in
  let start := if (start <? 0)%Z then 0%Z else start in
  if ((start >? stop) || (start >=? llen))%Z then []
  else
    let stop := if (stop >=? llen)%Z then (llen - 1)%Z else stop in
    let rangelen := (stop - start + 1)%Z in
    map snd (firstn (Z.to_nat rangelen) (skipn (Z.to_nat start) (rev l))).

(** The loop of [get_recent_trades] that rebuilds the trades; one member
    that fails to decode raises out of it. *)
Fixpoint decode_trades (members : list string) : option (list Trade) :=
  match members with
  | [] => Some []
  | trade_json :: rest =>
      match json_loads trade_json, decode_trades rest with
      | Some trade, Some trades => Some (trade :: trades)
      | _, _ => None
      end
  end.

(** [StateManager.get_recent_trades]: an exception gives the empty list. *)
Definition get_recent_trades (r : Redis) (limit : Z) : list Trade :=
  let trades_data := zrevrange (TRADES_KEY r) 0 (limit - 1) in
  match decode_trades trades_data with
  | Some trades => trades
  | None => []
  end.

(** ** Further functions of the accumulator *)

(** [MarketInfo.time_to_expiration], in microseconds.  [expiration] is the
    field of [MarketInfo] that the record above leaves out, read as a naive
    UTC datetime like the value of [datetime.utcnow()], so that their
    difference is defined; the clock is an input. *)
Definition time_to_expiration (expiration utcnow : Z) : Z :=
  Z.max 0 (expiration - utcnow).

(** [MarketInfo.is_within_settlement_buffer], the buffer in seconds. *)
Definition is_within_settlement_buffer (expiration utcnow : Z)
    (buffer_seconds : Z) : bool :=
  (time_to_expiration expiration utcnow <=? buffer_seconds * 1000000)%Z.

(** [Accumulator.scan_opportunities]. *)
Definition scan_opportunities (position : Position) (order_book : OrderBook)
    : list ListedOpportunity :=
  let state := calculate_state position in
  let avg_yes := si_avg_yes state in
  let avg_no := si_avg_no state in
  let ask_yes := get_best_ask_yes order_book in
  let ask_no := get_best_ask_no order_book in
  if negb (Decimal.opt_truthy ask_yes) || negb (Decimal.opt_truthy ask_no)
  then []
  else
    match ask_yes, ask_no with
    | Some ask_yes, Some ask_no =>
        let target_cost := get_profit_target config in
        (if Decimal.ltb (ask_yes + avg_no) target_cost
         then [mkListed YES ask_yes (ask_yes + avg_no)
                        (target_cost - (ask_yes + avg_no))]
         else []) ++
        (if Decimal.ltb (ask_no + avg_yes) target_cost
         then [mkListed NO ask_no (ask_no + avg_yes)
                        (target_cost - (ask_no + avg_yes))]
         else [])
    | _, _ => []
    end.

(** One turn of the loop of [Accumulator.start]: the flag [is_running] as
    read at the loop test, the clock, and what the scan of that turn gets
    from the venue. *)
Record TickEnv : Type := mkTickEnv {
  tick_running : bool;
  tick_utcnow : Z;
  tick_book : OrderBook;
  tick_trade : TradeEnv
}.

(** The [while self.is_running] loop of [Accumulator.start], one element
    of [ticks] per turn; the sleeps are left out. *)
Fixpoint accumulation_loop (market : MarketInfo)
    (expiration settlement_buffer_seconds : Z)
    (ticks : list TickEnv) (w : World) : World :=
  match ticks with
  | [] => w
  | t :: later =>
      if negb (tick_running t) then w
      else if is_halted (redis w) then
        accumulation_loop market expiration settlement_buffer_seconds later w
      else if is_within_settlement_buffer expiration (tick_utcnow t)
                                          settlement_buffer_seconds
      then w
      else
        accumulation_loop market expiration settlement_buffer_seconds later
          (_scan_and_execute (Some market) w (tick_book t) (tick_trade t))
  end.

(** [Accumulator.start]: the market is saved, then the loop runs. *)
Definition accumulator_start (market : MarketInfo)
    (expiration settlement_buffer_seconds : Z)
    (ticks : list TickEnv) (w : World) : World :=
  accumulation_loop market expiration settlement_buffer_seconds ticks
    (mkWorld (save_market (redis w) market) (orders w)).

(** The best ask of a side. *)
Definition best_ask_of (order_book : OrderBook) (side : Side) : option Q :=
  match side with
  | YES => get_best_ask_yes order_book
  | NO => get_best_ask_no order_book
  end.

(** ** Further functions of the risk engine and of the service *)

Inductive RiskLevel : Type := LOW | MEDIUM | HIGH | CRITICAL.

(** [RiskEngine.check_max_delta]. *)
Definition check_max_delta (position : Position) : bool :=
  let delta := Qabs (delta position) in
  let max_delta := max_unhedged_delta config in
  if Decimal.ltb max_delta delta then false else true.

(** [RiskEngine.check_liquidity_depth]. *)
Definition check_liquidity_depth (position : Position)
    (order_book : OrderBook) : bool :=
  let yes_liquidity := get_depth order_book YES ASK 10 in
  let no_liquidity := get_depth order_book NO ASK 10 in
  let required_yes := qty_yes position in
  let required_no := qty_no position in
  if Decimal.ltb yes_liquidity required_yes then false
  else if Decimal.ltb no_liquidity required_no then false
  else true.

(** [RiskEngine.check_settlement_buffer], on the expiration of the stored
    market. *)
Definition check_settlement_buffer (expiration utcnow : Z)
    (settlement_buffer_seconds : Z) : bool :=
  is_within_settlement_buffer expiration utcnow settlement_buffer_seconds.

(** [RiskEngine._update_risk_level]: the level it assigns. *)
Definition _update_risk_level
    (delta_ok liquidity_ok stop_loss settlement_risk : bool) : RiskLevel :=
  if stop_loss then CRITICAL
  else if negb delta_ok || negb liquidity_ok then HIGH
  else if settlement_risk then MEDIUM
  else LOW.

(** [class RiskMetrics]. *)
Record RiskMetrics : Type := mkRiskMetrics {
  current_delta : Q;
  max_delta : Q;
  rm_pair_cost : Q;
  rm_locked_profit : Q;
  unrealized_pnl : Q;
  realized_pnl : Q;
  time_to_settlement : Z;
  liquidity_depth_yes : Q;
  liquidity_depth_no : Q;
  rm_risk_level : RiskLevel
}.

(** [RiskEngine.get_risk_metrics]. *)
Definition get_risk_metrics (position : Position) (order_book : OrderBook)
    (expiration utcnow : Z) (risk_level : RiskLevel) : RiskMetrics :=
  let mid_yes := _get_mid_price (yes_bids order_book) (yes_asks order_book) in
  let mid_no := _get_mid_price (no_bids order_book) (no_asks order_book) in
  let unrealized_pnl :=
    match mid_yes, mid_no with
    | Some my, Some mn =>
        if Decimal.truthy my && Decimal.truthy mn then
          let position_value :=
            (qty_yes position * my) + (qty_no position * mn) in
          let position_cost := cost_yes position + cost_no position in
          position_value - position_cost
        else 0
    | _, _ => 0
    end in
  let liquidity_yes := get_depth order_book YES ASK 10 in
  let liquidity_no := get_depth order_book NO ASK 10 in
  mkRiskMetrics (delta position) (max_unhedged_delta config)
                (pair_cost position) (locked_profit position)
                unrealized_pnl 0
                (time_to_expiration expiration utcnow)
                liquidity_yes liquidity_no risk_level.

(** What the environment supplies to one pass of the risk checks. *)
Record RiskEnv : Type := mkRiskEnv {
  risk_book : OrderBook;
  risk_utcnow : Z;
  risk_sell_yes : SellEnv;
  risk_sell_no : SellEnv
}.

(** [RiskEngine._run_risk_checks].  The result holds the world, the level
    kept in [self.risk_level] and the metrics handed to [update_metrics]
    (none when no market is stored). *)
Definition _run_risk_checks (expiration settlement_buffer_seconds : Z)
    (w : World) (risk_level : RiskLevel) (env : RiskEnv)
    : World * RiskLevel * option RiskMetrics :=
  let position := get_position (redis w) in
  match get_market (redis w) with
  | None => (w, risk_level, None)
  | Some market =>
      let order_book := risk_book env in
      let delta_risk := check_max_delta position in
      let liquidity_risk := check_liquidity_depth position order_book in
      let stop_loss_triggered :=
        check_bailout_stop_loss position order_book in
      let settlement_risk :=
        check_settlement_buffer expiration (risk_utcnow env)
                                settlement_buffer_seconds in
      let risk_level :=
        _update_risk_level delta_risk liquidity_risk stop_loss_triggered
                           settlement_risk in
      let metrics :=
        get_risk_metrics position order_book expiration (risk_utcnow env)
                         risk_level in
      if stop_loss_triggered then
        (emergency_liquidation market w (risk_sell_yes env) (risk_sell_no env),
         risk_level, Some metrics)
      else if settlement_risk then
        (mkWorld (set_halt_flag (redis w) true) (orders w),
         risk_level, Some metrics)
      else (w, risk_level, Some metrics)
  end.




(** The best bid a liquidation sell sees (zero standing for no book). *)
Definition bid_seen (env : SellEnv) : Q :=
  match order_book_data env with
  | top :: _ => price top
  | [] => 0
  end.





(** ** api/polymarket_client.py: assembling the order book *)

(** One step of a stable sort: [x] goes after every leading element that
    has to stay before it. *)
Fixpoint insert_stable (before : OrderBookEntry -> OrderBookEntry -> bool)
    (x : OrderBookEntry) (l : list OrderBookEntry) : list OrderBookEntry :=
  match l with
  | [] => [x]
  | y :: rest =>
      if before y x then y :: insert_stable before x rest else x :: l
  end.

(** [list.sort(key=...)]: the sort is stable, so its result is the one of
    inserting the elements in their original order. *)
Definition sort_by (before : OrderBookEntry -> OrderBookEntry -> bool)
    (l : list OrderBookEntry) : list OrderBookEntry :=
  fold_left (fun acc x => insert_stable before x acc) l [].

(** [key=lambda x: x.price], ascending, and the same with [reverse=True]. *)
Definition price_ascending (y x : OrderBookEntry) : bool :=
  Qle_bool (price y) (price x).

Definition price_descending (y x : OrderBookEntry) : bool :=
  Qle_bool (price x) (price y).

(** [parse_book]: a response that is an exception, or that does not
    parse, gives no entries. *)
Definition parse_book (response : option (list OrderBookEntry))
    : list OrderBookEntry :=
  match response with
  | Some entries => entries
  | None => []
  end.

(** [PolymarketClient.get_market_order_book], from the four responses. *)
Definition get_market_order_book
    (yes_bids_response yes_asks_response
     no_bids_response no_asks_response : option (list OrderBookEntry))
    : OrderBook :=
  let yes_bids := parse_book yes_bids_response in
  let yes_asks := parse_book yes_asks_response in
  let no_bids := parse_book no_bids_response in
  let no_asks := parse_book no_asks_response in
  mkOrderBook (sort_by price_descending yes_bids)
              (sort_by price_ascending yes_asks)
              (sort_by price_descending no_bids)
              (sort_by price_ascending no_asks).

(** A list in which every element has to stay before all that follow. *)
Fixpoint ordered (before : OrderBookEntry -> OrderBookEntry -> bool)
    (l : list OrderBookEntry) : Prop :=
  match l with
  | [] => True
  | x :: rest => Forall (fun y => before x y = true) rest /\ ordered before rest
  end.

(** * Properties *)

(** ** Decimal comparisons *)

Lemma ltb_lt (a b : Q) : Decimal.ltb a b = true <-> a < b.
Proof.
  unfold Decimal.ltb. rewrite negb_true_iff.
  split; intro H.
  - apply Qnot_le_lt. intro Hle. apply Qle_bool_iff in Hle. congruence.
  - destruct (Qle_bool b a) eqn:E; [|reflexivity].
    apply Qle_bool_iff in E. exfalso. apply (Qlt_not_le _ _ H E).
Qed.

Lemma ltb_ge (a b : Q) : Decimal.ltb a b = false <-> b <= a.
Proof.
  unfold Decimal.ltb. rewrite negb_false_iff. apply Qle_bool_iff.
Qed.

Lemma truthy_true (d : Q) : Decimal.truthy d = true <-> ~ d == 0.
Proof.
  unfold Decimal.truthy. rewrite negb_true_iff.
  split; intro H.
  - intro E. apply Qeq_bool_iff in E. congruence.
  - destruct (Qeq_bool d 0) eqn:E; [|reflexivity].
    apply Qeq_bool_iff in E. contradiction.
Qed.

Lemma truthy_false (d : Q) : Decimal.truthy d = false <-> d == 0.
Proof.
  unfold Decimal.truthy. rewrite negb_false_iff. apply Qeq_bool_iff.
Qed.

Lemma min_spec (a b : Q) :
  (b < a /\ Decimal.min a b = b) \/ (a <= b /\ Decimal.min a b = a).
Proof.
  unfold Decimal.min. destruct (Decimal.ltb b a) eqn:E.
  - left. apply ltb_lt in E. auto.
  - right. apply ltb_ge in E. auto.
Qed.

(** ** The position model *)


(** [update_position_atomic] ends with the attempt that meets no conflict:
    it reads the store as the conflicting writes left it. *)
Lemma update_position_atomic_result (r : Redis) (conflicts : list Position)
    (side : Side) (dq dc : Q) :
  let r0 := after_conflicts r conflicts in
  let p := Position_init (add_primaries side dq dc (get_position r0)) in
  update_position_atomic r conflicts side dq dc =
  (set_position r0 p, p, List.length conflicts).
Proof.
  revert r. induction conflicts as [|other later IH]; intro r.
  - reflexivity.
  - cbn [update_position_atomic]. rewrite IH. reflexivity.
Qed.

(** ** State store: atomic position update *)

(** C2 (amended).  A committed update [(side, dq, dc)] of a position whose
    four primaries are non-negative leaves the other side's primaries
    non-negative, keeps the quantity of [side] non-negative exactly when
    [dq >= -qty_side], and keeps its cost non-negative exactly when
    [dc >= -cost_side].  Nothing in the update rejects the other cases. *)
Theorem update_position_atomic_sign
    (r : Redis) (conflicts : list Position) (side : Side) (dq dc : Q) :
  let old := get_position (after_conflicts r conflicts) in
  0 <= qty_yes old -> 0 <= cost_yes old ->
  0 <= qty_no old -> 0 <= cost_no old ->
  let '(_, p, _) := update_position_atomic r conflicts side dq dc in
  0 <= qty_of (opposite side) p /\
  0 <= cost_of (opposite side) p /\
  (0 <= qty_of side p <-> - qty_of side old <= dq) /\
  (0 <= cost_of side p <-> - cost_of side old <= dc).
Proof.
  cbv zeta. intros Hqy Hcy Hqn Hcn.
  rewrite update_position_atomic_result.
  set (old := get_position (after_conflicts r conflicts)) in *.
  destruct side; simpl; repeat split; intros; lra.
Qed.

(** ** Accumulator *)

Lemma execute_trade_orders (market : MarketInfo) (w : World) (env : TradeEnv)
    (side : Side) (price qty : Q) :
  orders (fst (execute_trade (Some market) w env side price qty)) =
  orders w ++ [buy_order market side price qty].
Proof.
  unfold execute_trade, buy_order, token_of.
  destruct (negb (order_id_truthy (venue_order_id env))).
  - destruct side; reflexivity.
  - destruct (update_position_atomic _ _ _ _ _) as [[r p] d].
    destruct side; reflexivity.
Qed.



(** [_execute_opportunity] either leaves the world alone or sends exactly
    one buy of [trade_size] for the side it was given, and the latter only
    when the constraints hold on the snapshot. *)
Lemma execute_opportunity_cases (current_market : option MarketInfo)
    (w : World) (env : TradeEnv) (opp : Opportunity) (position : Position)
    (order_book : OrderBook) :
  let w' := _execute_opportunity current_market w env opp
                                 position order_book in
  w' = w \/
  exists market,
    current_market = Some market /\
    _check_constraints (opp_side opp) position order_book = true /\
    orders w' =
      orders w ++
      [buy_order market (opp_side opp) (opp_price opp) (trade_size config)].
Proof.
  cbv zeta. unfold _execute_opportunity.
  destruct (_check_constraints (opp_side opp) position order_book) eqn:E;
    simpl; [|left; reflexivity].
  destruct current_market as [market|]; [|left; reflexivity].
  right. exists market. split; [reflexivity|]. split; [reflexivity|].
  apply execute_trade_orders.
Qed.



(** C7.  When the venue's answer to [place_limit_order] carries no order
    id ([None], or an empty one), [execute_trade] returns [None] and the
    store is the one it started from: the position key and the trade log
    are unchanged. *)
Theorem execute_trade_rejected (current_market : option MarketInfo)
    (w : World) (env : TradeEnv) (side : Side) (price qty : Q) :
  order_id_truthy (venue_order_id env) = false ->
  let '(w', result) := execute_trade current_market w env side price qty in
  result = None /\
  redis w' = redis w /\
  get_position (redis w') = get_position (redis w) /\
  TRADES_KEY (redis w') = TRADES_KEY (redis w).
Proof.
  intro H. unfold execute_trade.
  destruct current_market as [market|]; [|repeat split].
  rewrite H. simpl. repeat split.
Qed.

(** C10.  With both ask lists non-empty, a best YES ask or a best NO ask
    whose price is zero makes the scan return without any effect, exactly
    as a missing ask does. *)
Theorem scan_skips_zero_ask (current_market : option MarketInfo)
    (w : World) (order_book : OrderBook) (env : TradeEnv) (ask_yes ask_no : Q) :
  get_best_ask_yes order_book = Some ask_yes ->
  get_best_ask_no order_book = Some ask_no ->
  ask_yes == 0 \/ ask_no == 0 ->
  yes_asks order_book <> [] /\ no_asks order_book <> [] /\
  _scan_and_execute current_market w order_book env = w.
Proof.
  intros Hy Hn Hz.
  unfold get_best_ask_yes, get_best_ask_no, best_price in Hy, Hn.
  destruct (yes_asks order_book) as [|ey ry] eqn:Ey; [discriminate|].
  destruct (no_asks order_book) as [|en rn] eqn:En; [discriminate|].
  split; [discriminate|]. split; [discriminate|].
  unfold _scan_and_execute.
  destruct current_market as [market|]; [|reflexivity].
  unfold get_best_ask_yes, get_best_ask_no. rewrite Ey, En. simpl.
  injection Hy as ->. injection Hn as ->.
  destruct Hz as [Hz|Hz]; apply truthy_false in Hz; rewrite Hz; simpl.
  - reflexivity.
  - now rewrite orb_true_r.
Qed.

(** ** Retries of the atomic update *)

(** ** Risk engine: stop-loss *)




(** ** Trade log *)

Lemma zset_entry_ltb_true (e x : Z * string) :
  ZSet.entry_ltb e x = true -> (fst e <= fst x)%Z.
Proof.
  unfold ZSet.entry_ltb. intro H.
  apply orb_true_iff in H. destruct H as [H|H].
  - apply Z.ltb_lt in H. lia.
  - apply andb_true_iff in H. destruct H as [H _].
    apply Z.eqb_eq in H. lia.
Qed.

Lemma zset_entry_ltb_false (e x : Z * string) :
  ZSet.entry_ltb e x = false -> (fst x <= fst e)%Z.
Proof.
  unfold ZSet.entry_ltb. intro H.
  apply orb_false_iff in H. destruct H as [H _].
  apply Z.ltb_ge in H. exact H.
Qed.

Lemma zset_insert_bound (x e : Z * string) (l : ZSet.t) :
  (fst x <= fst e)%Z ->
  Forall (fun y => (fst x <= fst y)%Z) l ->
  Forall (fun y => (fst x <= fst y)%Z) (ZSet.insert e l).
Proof.
  intros He Hl. induction l as [|y rest IH]; simpl.
  - constructor; [exact He|constructor].
  - inversion Hl as [|? ? Hy Hrest]; subst.
    destruct (ZSet.entry_ltb e y).
    + constructor; [exact He|]. constructor; assumption.
    + constructor; [exact Hy|]. now apply IH.
Qed.

Lemma zset_insert_sorted (e : Z * string) (l : ZSet.t) :
  ZSet.sorted l -> ZSet.sorted (ZSet.insert e l).
Proof.
  induction l as [|x rest IH]; intro Hs; simpl.
  - split; [constructor|exact I].
  - destruct Hs as [Hx Hrest].
    destruct (ZSet.entry_ltb e x) eqn:E.
    + apply zset_entry_ltb_true in E.
      split; [|split; assumption].
      constructor; [exact E|].
      eapply Forall_impl; [|exact Hx]. intros y Hy. simpl in Hy. lia.
    + apply zset_entry_ltb_false in E. simpl.
      split; [now apply zset_insert_bound|now apply IH].
Qed.

Lemma zset_remove_member_sorted (member : string) (l : ZSet.t) :
  ZSet.sorted l -> ZSet.sorted (ZSet.remove_member member l).
Proof.
  unfold ZSet.remove_member.
  induction l as [|x rest IH]; intro Hs; simpl; [exact I|].
  destruct Hs as [Hx Hrest].
  destruct (negb (snd x =? member)%string).
  - simpl. split; [|now apply IH].
    apply Forall_forall. intros y Hy.
    apply filter_In in Hy. destruct Hy as [Hy _].
    rewrite Forall_forall in Hx. now apply Hx.
  - now apply IH.
Qed.

Lemma zset_zadd_sorted (l : ZSet.t) (member : string) (score : Z) :
  ZSet.sorted l -> ZSet.sorted (ZSet.zadd l member score).
Proof.
  intro Hs. unfold ZSet.zadd.
  now apply zset_insert_sorted, zset_remove_member_sorted.
Qed.

Lemma zset_sorted_skipn (k : nat) (l : ZSet.t) :
  ZSet.sorted l -> ZSet.sorted (skipn k l).
Proof.
  revert l. induction k as [|k IH]; intros l Hs; [exact Hs|].
  destruct l as [|x rest]; [exact I|].
  simpl. apply IH. now destruct Hs.
Qed.

(** In a sorted set, every entry of a prefix scores no more than every
    entry that follows it. *)
Lemma zset_sorted_prefix_le (k : nat) (l : ZSet.t) :
  ZSet.sorted l ->
  Forall (fun e => Forall (fun y => (fst e <= fst y)%Z) (skipn k l))
         (firstn k l).
Proof.
  revert l. induction k as [|k IH]; intros l Hs; [constructor|].
  destruct l as [|x rest]; [constructor|].
  destruct Hs as [Hx Hrest]. simpl.
  constructor; [|now apply IH].
  apply Forall_forall. intros y Hy.
  rewrite Forall_forall in Hx. apply Hx.
  rewrite <- (firstn_skipn k rest). apply in_or_app. now right.
Qed.

(** The trim issued by [add_trade] keeps the last 1000 ranks. *)
Lemma zremrangebyrank_keeps_last_1000 (l : ZSet.t) :
  ZSet.zremrangebyrank l 0 (-1001) = skipn (List.length l - 1000) l.
Proof.
  unfold ZSet.zremrangebyrank. cbv zeta.
  set (n := List.length l).
  change (-1001 <? 0)%Z with true.
  repeat (change (0 <? 0)%Z with false; cbv iota).
  destruct (Z.gtb_spec 0 (Z.of_nat n + -1001)) as [H|H]; simpl orb.
  - replace (n - 1000)%nat with O by lia. reflexivity.
  - destruct (Z.geb_spec 0 (Z.of_nat n)) as [H'|H']; [lia|].
    destruct (Z.geb_spec (Z.of_nat n + -1001) (Z.of_nat n)) as [H''|H''];
      [lia|].
    replace (Z.to_nat (Z.of_nat n + -1001 + 1)) with (n - 1000)%nat by lia.
    reflexivity.
Qed.

(** C8.  After [add_trade] the log holds at most 1000 entries; it is what
    remains of the log with the new trade added once the entries of lowest
    rank are dropped, and on a log in score order every dropped entry has a
    timestamp no later than every entry retained.  The log stays in score
    order. *)
Theorem add_trade_bounded_evicts_oldest (r : Redis) (trade : Trade) :
  ZSet.sorted (TRADES_KEY r) ->
  let added :=
    ZSet.zadd (TRADES_KEY r) (json_dumps trade) (timestamp trade) in
  let kept := TRADES_KEY (add_trade r trade) in
  (List.length kept <= 1000)%nat /\
  ZSet.sorted kept /\
  exists evicted,
    added = evicted ++ kept /\
    List.length evicted = (List.length added - 1000)%nat /\
    Forall (fun e => Forall (fun k => (fst e <= fst k)%Z) kept) evicted.
Proof.
  intro Hs. cbv zeta. unfold add_trade. cbn [TRADES_KEY set_trades].
  rewrite zremrangebyrank_keeps_last_1000.
  set (added := ZSet.zadd (TRADES_KEY r) (json_dumps trade) (timestamp trade)).
  assert (Ha : ZSet.sorted added) by now apply zset_zadd_sorted.
  split; [rewrite length_skipn; lia|].
  split; [now apply zset_sorted_skipn|].
  exists (firstn (List.length added - 1000) added).
  split; [now rewrite firstn_skipn|].
  split; [rewrite length_firstn; lia|].
  now apply zset_sorted_prefix_le.
Qed.

(** ** State store: reading back, composing updates, the trade log *)




Lemma add_trade_frame (r : Redis) (trade : Trade) :
  POSITION_KEY (add_trade r trade) = POSITION_KEY r /\
  MARKET_KEY (add_trade r trade) = MARKET_KEY r /\
  HALT_KEY (add_trade r trade) = HALT_KEY r.
Proof.
  repeat split.
Qed.

Lemma zset_remove_member_length (member : string) (l : ZSet.t) :
  (List.length (ZSet.remove_member member l) <= List.length l)%nat.
Proof.
  apply filter_length_le.
Qed.

Lemma zset_insert_length (e : Z * string) (l : ZSet.t) :
  List.length (ZSet.insert e l) = S (List.length l).
Proof.
  induction l as [|x rest IH]; simpl; [reflexivity|].
  destruct (ZSet.entry_ltb e x); simpl; [reflexivity|now rewrite IH].
Qed.

Lemma add_trade_count (r : Redis) (trade : Trade) :
  (get_trade_count (add_trade r trade) <= 1000)%nat /\
  (get_trade_count (add_trade r trade) <= S (get_trade_count r))%nat.
Proof.
  unfold get_trade_count, ZSet.zcard, add_trade.
  cbn [TRADES_KEY set_trades].
  rewrite zremrangebyrank_keeps_last_1000, length_skipn.
  unfold ZSet.zadd. rewrite zset_insert_length.
  pose proof (zset_remove_member_length (json_dumps trade) (TRADES_KEY r)).
  lia.
Qed.

Lemma add_trade_sorted (r : Redis) (trade : Trade) :
  ZSet.sorted (TRADES_KEY r) -> ZSet.sorted (TRADES_KEY (add_trade r trade)).
Proof.
  intro H. unfold add_trade. cbn [TRADES_KEY set_trades].
  rewrite zremrangebyrank_keeps_last_1000.
  now apply zset_sorted_skipn, zset_zadd_sorted.
Qed.

(** Over any sequence of [add_trade] calls on a log that is in score
    order and within the cap, the log stays in score order, never holds
    more than 1000 entries nor more than it had plus the number of calls,
    and the position, market and halt keys are not touched. *)
Theorem trade_log_invariant (r : Redis) (trades : list Trade) :
  ZSet.sorted (TRADES_KEY r) ->
  (get_trade_count r <= 1000)%nat ->
  let r' := fold_left add_trade trades r in
  ZSet.sorted (TRADES_KEY r') /\
  (get_trade_count r' <= 1000)%nat /\
  (get_trade_count r' <= get_trade_count r + List.length trades)%nat /\
  POSITION_KEY r' = POSITION_KEY r /\
  MARKET_KEY r' = MARKET_KEY r /\
  HALT_KEY r' = HALT_KEY r.
Proof.
  cbv zeta. revert r.
  induction trades as [|t rest IH]; intros r Hs Hc.
  - simpl. repeat split; try assumption. lia.
  - cbn [fold_left List.length].
    destruct (add_trade_count r t) as [H1 H2].
    destruct (add_trade_frame r t) as (Fp & Fm & Fh).
    destruct (IH (add_trade r t) (add_trade_sorted r t Hs) H1)
      as (Is & Ic & In & Ip & Im & Ih).
    repeat split; try assumption; try congruence. lia.
Qed.

Lemma decode_trades_length (members : list string) (trades : list Trade) :
  decode_trades members = Some trades ->
  List.length trades = List.length members.
Proof.
  revert trades. induction members as [|m rest IH]; intros trades H.
  - injection H as <-. reflexivity.
  - simpl in H. destruct (json_loads m) as [t|]; [|discriminate].
    destruct (decode_trades rest) as [ts|]; [|discriminate].
    injection H as <-. simpl. now rewrite (IH ts).
Qed.

(** [ZREVRANGE key 0 (limit - 1)] takes from the top of the set: [limit]
    members when [limit >= 1], and all but the [-limit] lowest ones when
    [limit <= 0]. *)
Lemma zrevrange_from_top (l : ZSet.t) (limit : Z) :
  let n := Z.of_nat (List.length l) in
  let taken := if (1 <=? limit)%Z then limit else (n + limit)%Z in
  zrevrange l 0 (limit - 1) = map snd (firstn (Z.to_nat taken) (rev l)).
Proof.
  cbv zeta. unfold zrevrange. cbv zeta.
  set (n := Z.of_nat (List.length l)).
  assert (Hrev : List.length (rev l) = Z.to_nat n)
    by (rewrite length_rev; unfold n; lia).
  repeat (change (0 <? 0)%Z with false; cbv iota).
  destruct (Z.leb_spec 1 limit) as [Hl|Hl].
  - destruct (Z.ltb_spec (limit - 1) 0) as [H|H]; [lia|].
    destruct (Z.gtb_spec 0 (limit - 1)) as [H1|H1]; [lia|]. simpl orb.
    destruct (Z.geb_spec 0 n) as [H2|H2].
    + rewrite firstn_all2 by lia.
      destruct (rev l); [reflexivity|simpl in Hrev; lia].
    + f_equal. change (Z.to_nat 0) with O. cbn [skipn].
      destruct (Z.geb_spec (limit - 1) n) as [H3|H3].
      * rewrite !firstn_all2 by lia. reflexivity.
      * f_equal. lia.
  - destruct (Z.ltb_spec (limit - 1) 0) as [H|H]; [|lia].
    destruct (Z.gtb_spec 0 (n + (limit - 1))) as [H1|H1]; simpl orb.
    + replace (Z.to_nat (n + limit)) with O by lia. reflexivity.
    + destruct (Z.geb_spec 0 n) as [H2|H2]; [lia|].
      destruct (Z.geb_spec (n + (limit - 1)) n) as [H3|H3]; [lia|].
      f_equal. change (Z.to_nat 0) with O. cbn [skipn]. f_equal. lia.
Qed.

(** [get_recent_trades(limit)] rebuilds the members taken from the top of
    the log, newest first: at most [limit] of them when [limit >= 1]; for
    [limit <= 0] the range wraps round and it is all but the [-limit]
    oldest trades, so a limit of 0 asks for the whole log.  It returns the
    empty list when a member fails to decode. *)
Theorem get_recent_trades_range (r : Redis) (limit : Z) :
  let log := TRADES_KEY r in
  let n := Z.of_nat (List.length log) in
  let taken := if (1 <=? limit)%Z then limit else (n + limit)%Z in
  let members := map snd (firstn (Z.to_nat taken) (rev log)) in
  get_recent_trades r limit =
    match decode_trades members with
    | Some trades => trades
    | None => []
    end /\
  (List.length (get_recent_trades r limit) <= Z.to_nat taken)%nat /\
  (List.length (get_recent_trades r limit) <= List.length log)%nat.
Proof.
  cbv zeta. unfold get_recent_trades. cbv zeta.
  pose proof (zrevrange_from_top (TRADES_KEY r) limit) as E.
  cbv zeta in E. rewrite E. split; [reflexivity|].
  set (members := map snd (firstn _ (rev (TRADES_KEY r)))).
  assert (Hm : (List.length members <= Z.to_nat
                  (if (1 <=? limit)%Z then limit
                   else (Z.of_nat (List.length (TRADES_KEY r)) + limit)%Z))%nat
               /\ (List.length members <= List.length (TRADES_KEY r))%nat).
  { unfold members. rewrite length_map, length_firstn, length_rev. lia. }
  destruct (decode_trades members) as [trades|] eqn:D.
  - apply decode_trades_length in D. rewrite D. exact Hm.
  - simpl. lia.
Qed.

Lemma zset_insert_newest (ts : Z) (member : string) (l : ZSet.t) :
  Forall (fun e => (fst e < ts)%Z) l ->
  ZSet.insert (ts, member) l = l ++ [(ts, member)].
Proof.
  induction 1 as [|x rest Hx _ IH]; simpl; [reflexivity|].
  unfold ZSet.entry_ltb. cbn [fst snd].
  destruct (Z.ltb_spec ts (fst x)) as [H|H]; [lia|].
  destruct (Z.eqb_spec ts (fst x)) as [H'|H']; [lia|].
  simpl. now rewrite IH.
Qed.

(** A trade stamped later than everything on the log becomes the top
    entry: [get_recent_trades(1)] then returns it alone (as far as it
    decodes). *)
Theorem newest_trade_is_most_recent (r : Redis) (trade : Trade) :
  Forall (fun e => (fst e < timestamp trade)%Z) (TRADES_KEY r) ->
  zrevrange (TRADES_KEY (add_trade r trade)) 0 0 = [json_dumps trade] /\
  get_recent_trades (add_trade r trade) 1 =
    match json_loads (json_dumps trade) with
    | Some decoded => [decoded]
    | None => []
    end.
Proof.
  intro H.
  assert (E : exists kept,
             TRADES_KEY (add_trade r trade) =
             kept ++ [(timestamp trade, json_dumps trade)]).
  { unfold add_trade. cbn [TRADES_KEY set_trades].
    rewrite zremrangebyrank_keeps_last_1000.
    unfold ZSet.zadd. rewrite zset_insert_newest.
    - set (l := ZSet.remove_member (json_dumps trade) (TRADES_KEY r)).
      rewrite skipn_app, length_app. cbn [List.length].
      replace (List.length l + 1 - 1000 - List.length l)%nat with O by lia.
      eexists. reflexivity.
    - unfold ZSet.remove_member. apply Forall_forall. intros e He.
      apply filter_In in He. destruct He as [He _].
      rewrite Forall_forall in H. now apply H. }
  destruct E as [kept E].
  assert (Z0 : zrevrange (TRADES_KEY (add_trade r trade)) 0 0 =
               [json_dumps trade]).
  { change 0%Z with (1 - 1)%Z at 2.
    pose proof (zrevrange_from_top (TRADES_KEY (add_trade r trade)) 1) as T.
    cbv zeta in T. rewrite T. rewrite E, rev_app_distr. reflexivity. }
  split; [exact Z0|].
  unfold get_recent_trades. cbv zeta.
  change (1 - 1)%Z with 0%Z. rewrite Z0. simpl.
  destruct (json_loads (json_dumps trade)); reflexivity.
Qed.

(** ** Accumulator: what a scan can and cannot do *)



(** Whatever a scan sends is a post-only buy of [trade_size] for an entry
    that [scan_opportunities] lists on the same snapshot and book, at the
    price listed; in particular a scan does nothing when nothing is
    listed. *)
Theorem scan_trades_only_listed (current_market : option MarketInfo)
    (w : World) (order_book : OrderBook) (env : TradeEnv) :
  let listed := scan_opportunities (get_position (redis w)) order_book in
  let w' := _scan_and_execute current_market w order_book env in
  (w' = w \/
   exists market o,
     current_market = Some market /\ In o listed /\
     orders w' =
       orders w ++
       [buy_order market (lo_side o) (lo_price o) (trade_size config)]) /\
  (listed = [] -> w' = w).
Proof.
  cbv zeta. unfold _scan_and_execute, scan_opportunities. cbv zeta.
  destruct current_market as [market|]; [|split; [left|]; reflexivity].
  unfold get_best_ask_yes, get_best_ask_no, best_price.
  destruct (yes_asks order_book) as [|ey ry];
    [split; [left|]; reflexivity|].
  destruct (no_asks order_book) as [|en rn];
    [split; [left|]; reflexivity|].
  cbv beta iota. cbn [Decimal.opt_truthy].
  destruct (negb (Decimal.truthy (price ey)) || negb (Decimal.truthy (price en)));
    [split; [left|]; reflexivity|].
  unfold opportunity_yes, opportunity_no.
  set (p := get_position (redis w)).
  destruct (Decimal.ltb (price ey + si_avg_no (calculate_state p))
                        (get_profit_target config)) eqn:Hy;
    destruct (Decimal.ltb (price en + si_avg_yes (calculate_state p))
                          (get_profit_target config)) eqn:Hn;
    cbn [app expected_pair_cost].
  - split; [|discriminate].
    destruct (Decimal.ltb (price ey + si_avg_no (calculate_state p))
                          (price en + si_avg_yes (calculate_state p))).
    + destruct (execute_opportunity_cases (Some market) w env
                  (mkOpportunity YES (price ey)
                     (price ey + si_avg_no (calculate_state p))) p order_book)
        as [H|(m & Hm & _ & Ho)]; [left; exact H|].
      right. exists m. eexists. split; [exact Hm|].
      split; [left; reflexivity|exact Ho].
    + destruct (execute_opportunity_cases (Some market) w env
                  (mkOpportunity NO (price en)
                     (price en + si_avg_yes (calculate_state p))) p order_book)
        as [H|(m & Hm & _ & Ho)]; [left; exact H|].
      right. exists m. eexists. split; [exact Hm|].
      split; [right; left; reflexivity|exact Ho].
  - split; [|discriminate].
    destruct (execute_opportunity_cases (Some market) w env
                (mkOpportunity YES (price ey)
                   (price ey + si_avg_no (calculate_state p))) p order_book)
      as [H|(m & Hm & _ & Ho)]; [left; exact H|].
    right. exists m. eexists. split; [exact Hm|].
    split; [left; reflexivity|exact Ho].
  - split; [|discriminate].
    destruct (execute_opportunity_cases (Some market) w env
                (mkOpportunity NO (price en)
                   (price en + si_avg_yes (calculate_state p))) p order_book)
      as [H|(m & Hm & _ & Ho)]; [left; exact H|].
    right. exists m. eexists. split; [exact Hm|].
    split; [left; reflexivity|exact Ho].
  - split; [left|]; reflexivity.
Qed.

Lemma after_conflicts_frame (r : Redis) (conflicts : list Position) :
  TRADES_KEY (after_conflicts r conflicts) = TRADES_KEY r /\
  MARKET_KEY (after_conflicts r conflicts) = MARKET_KEY r /\
  HALT_KEY (after_conflicts r conflicts) = HALT_KEY r.
Proof.
  revert r. induction conflicts as [|c rest IH]; intro r.
  - repeat split.
  - unfold after_conflicts in *. cbn [fold_left].
    destruct (IH (set_position r c)) as (H1 & H2 & H3).
    repeat split; assumption.
Qed.




Lemma time_to_expiration_antitone (expiration t1 t2 : Z) :
  (t1 <= t2)%Z ->
  (time_to_expiration expiration t2 <= time_to_expiration expiration t1)%Z.
Proof.
  unfold time_to_expiration. lia.
Qed.

(** The settlement buffer is final: once a market is within the buffer it
    is within it at every later time, and a market that has expired is
    within any non-negative buffer. *)
Theorem settlement_buffer_is_final (expiration t1 t2 buffer_seconds : Z) :
  (t1 <= t2)%Z ->
  is_within_settlement_buffer expiration t1 buffer_seconds = true ->
  is_within_settlement_buffer expiration t2 buffer_seconds = true /\
  (forall t, (expiration <= t)%Z -> (0 <= buffer_seconds)%Z ->
             time_to_expiration expiration t = 0%Z /\
             is_within_settlement_buffer expiration t buffer_seconds = true).
Proof.
  unfold is_within_settlement_buffer. intros Ht H.
  apply Z.leb_le in H.
  pose proof (time_to_expiration_antitone expiration t1 t2 Ht).
  split.
  - apply Z.leb_le. lia.
  - intros t He Hb. unfold time_to_expiration.
    split; [lia|]. apply Z.leb_le. lia.
Qed.

Lemma accumulation_loop_halted (market : MarketInfo)
    (expiration buffer_seconds : Z) (ticks : list TickEnv) (w : World) :
  is_halted (redis w) = true ->
  accumulation_loop market expiration buffer_seconds ticks w = w.
Proof.
  intro H. induction ticks as [|t later IH]; [reflexivity|].
  cbn [accumulation_loop]. rewrite H.
  destruct (negb (tick_running t)); [reflexivity|exact IH].
Qed.

(** While the halt flag is set the accumulation loop does nothing at all,
    however many turns it takes; and when its first turn finds the market
    within the settlement buffer, the loop as a whole leaves the world as
    it found it. *)
Theorem accumulation_loop_respects_halt_and_buffer (market : MarketInfo)
    (expiration buffer_seconds : Z) (ticks : list TickEnv) (w : World) :
  (is_halted (redis w) = true ->
   accumulation_loop market expiration buffer_seconds ticks w = w) /\
  (forall t later,
     ticks = t :: later ->
     is_within_settlement_buffer expiration (tick_utcnow t) buffer_seconds
       = true ->
     accumulation_loop market expiration buffer_seconds ticks w = w).
Proof.
  split; [apply accumulation_loop_halted|].
  intros t later -> Hb. cbn [accumulation_loop]. rewrite Hb.
  destruct (negb (tick_running t)); [reflexivity|].
  destruct (is_halted (redis w)) eqn:Hh; [|reflexivity].
  now apply accumulation_loop_halted.
Qed.

(** ** Equalizer: what a rebalance can and cannot do *)









(** [_check_and_rebalance] leaves the world as it is when the imbalance
    is below one share, when no market is stored, or when the lagging side
    has no ask or an ask priced at zero. *)
Theorem rebalance_skips (current_market : option MarketInfo)
    (w : World) (order_book : OrderBook) (envs : list LoopEnv) :
  let p := get_position (redis w) in
  let lagging_side := if Decimal.ltb 0 (delta p) then NO else YES in
  Qabs (delta p) < 1 \/ get_market (redis w) = None \/
  best_ask_of order_book lagging_side = None \/
  (exists ask, best_ask_of order_book lagging_side = Some ask /\ ask == 0) ->
  _check_and_rebalance current_market w order_book envs = w.
Proof.
  cbv zeta. intro H. unfold _check_and_rebalance.
  destruct (Decimal.ltb (Qabs (delta (get_position (redis w)))) 1) eqn:E;
    [reflexivity|].
  apply ltb_ge in E.
  destruct H as [H|[H|H]]; [lra| |].
  - unfold get_market in H. now rewrite H.
  - destruct (MARKET_KEY (redis w)); [|reflexivity].
    unfold _rebalance_position, best_ask_of in *.
    destruct (Decimal.ltb 0 (delta (get_position (redis w))));
      destruct H as [H|(ask & H & Hz)]; rewrite H; try reflexivity;
      apply truthy_false in Hz; now rewrite Hz.
Qed.

(** ** Risk engine: liquidation and the periodic checks *)

Lemma update_position_atomic_frame (r : Redis) (conflicts : list Position)
    (side : Side) (dq dc : Q) :
  let r' := fst (fst (update_position_atomic r conflicts side dq dc)) in
  TRADES_KEY r' = TRADES_KEY r /\ MARKET_KEY r' = MARKET_KEY r /\
  HALT_KEY r' = HALT_KEY r.
Proof.
  cbv zeta. rewrite update_position_atomic_result. cbn [fst].
  apply after_conflicts_frame.
Qed.

(** One liquidation sell: the order it sends, if any, is a taker sell at
    the best bid seen, and only the position key can change. *)
Lemma market_sell_cases (w : World) (env : SellEnv) (token_id : string)
    (qty : Q) (side : Side) :
  let w' := _market_sell w env token_id qty side in
  (orders w' = orders w \/
   orders w' = orders w ++ [mkOrder token_id SELL (bid_seen env) qty false]) /\
  TRADES_KEY (redis w') = TRADES_KEY (redis w) /\
  MARKET_KEY (redis w') = MARKET_KEY (redis w) /\
  HALT_KEY (redis w') = HALT_KEY (redis w).
Proof.
  cbv zeta. unfold _market_sell, bid_seen.
  destruct (order_book_data env) as [|top rest];
    [split; [left; reflexivity|repeat split]|].
  destruct (order_id_truthy (sell_order_id env)).
  - pose proof (update_position_atomic_frame
                  (redis (place_limit_order w token_id SELL (price top) qty false))
                  (sell_conflicts env) side (- qty) (- (price top * qty))) as F.
    cbv zeta in F.
    destruct (update_position_atomic _ _ _ _ _) as [[r p] d].
    cbn [fst] in F. cbn [redis orders place_limit_order] in *.
    split; [right; reflexivity|exact F].
  - split; [right; reflexivity|repeat split].
Qed.

(** Whatever the venue answers, an emergency liquidation sends at most two
    orders, each a sell that may take ([post_only = false]) for a strictly
    positive quantity; it always ends with the halt flag set, and it leaves
    the trade log and the stored market alone. *)
Theorem emergency_liquidation_orders (market : MarketInfo) (w : World)
    (env_yes env_no : SellEnv) :
  let w' := emergency_liquidation market w env_yes env_no in
  (exists placed,
     orders w' = orders w ++ placed /\
     (List.length placed <= 2)%nat /\
     Forall (fun o => o_side o = SELL /\ o_post_only o = false /\
                      0 < o_size o) placed) /\
  is_halted (redis w') = true /\
  TRADES_KEY (redis w') = TRADES_KEY (redis w) /\
  MARKET_KEY (redis w') = MARKET_KEY (redis w).
Proof.
  cbv zeta. unfold emergency_liquidation.
  set (p := get_position (redis w)).
  set (w1 := if Decimal.ltb 0 (qty_yes p)
             then _market_sell w env_yes (token_id_yes market) (qty_yes p) YES
             else w).
  set (w2 := if Decimal.ltb 0 (qty_no p)
             then _market_sell w1 env_no (token_id_no market) (qty_no p) NO
             else w1).
  assert (H1 : (exists placed,
                  orders w1 = orders w ++ placed /\
                  (List.length placed <= 1)%nat /\
                  Forall (fun o => o_side o = SELL /\ o_post_only o = false /\
                                   0 < o_size o) placed) /\
               TRADES_KEY (redis w1) = TRADES_KEY (redis w) /\
               MARKET_KEY (redis w1) = MARKET_KEY (redis w)).
  { unfold w1. destruct (Decimal.ltb 0 (qty_yes p)) eqn:E.
    - apply ltb_lt in E.
      destruct (market_sell_cases w env_yes (token_id_yes market)
                  (qty_yes p) YES) as ([Ho|Ho] & Ft & Fm & _).
      + split; [|split; assumption].
        exists []. rewrite Ho, app_nil_r. repeat split; [simpl; lia|constructor].
      + split; [|split; assumption].
        eexists. split; [exact Ho|]. split; [simpl; lia|].
        repeat constructor. exact E.
    - split; [|split; reflexivity].
      exists []. rewrite app_nil_r. repeat split; [simpl; lia|constructor]. }
  assert (H2 : (exists placed,
                  orders w2 = orders w1 ++ placed /\
                  (List.length placed <= 1)%nat /\
                  Forall (fun o => o_side o = SELL /\ o_post_only o = false /\
                                   0 < o_size o) placed) /\
               TRADES_KEY (redis w2) = TRADES_KEY (redis w1) /\
               MARKET_KEY (redis w2) = MARKET_KEY (redis w1)).
  { unfold w2. destruct (Decimal.ltb 0 (qty_no p)) eqn:E.
    - apply ltb_lt in E.
      destruct (market_sell_cases w1 env_no (token_id_no market)
                  (qty_no p) NO) as ([Ho|Ho] & Ft & Fm & _).
      + split; [|split; assumption].
        exists []. rewrite Ho, app_nil_r. repeat split; [simpl; lia|constructor].
      + split; [|split; assumption].
        eexists. split; [exact Ho|]. split; [simpl; lia|].
        repeat constructor. exact E.
    - split; [|split; reflexivity].
      exists []. rewrite app_nil_r. repeat split; [simpl; lia|constructor]. }
  destruct H1 as ((pl1 & Ho1 & Hl1 & Hf1) & Ft1 & Fm1).
  destruct H2 as ((pl2 & Ho2 & Hl2 & Hf2) & Ft2 & Fm2).
  cbn [redis orders set_halt_flag is_halted HALT_KEY TRADES_KEY MARKET_KEY].
  split; [|split; [reflexivity|split; congruence]].
  exists (pl1 ++ pl2). split; [rewrite Ho2, Ho1, app_assoc; reflexivity|].
  split; [rewrite length_app; lia|].
  apply Forall_app. split; assumption.
Qed.

(** One pass of the risk checks touches the world only when something
    trips.  With no market stored nothing happens at all; otherwise, if
    neither the stop-loss nor the settlement check fires the world is
    unchanged; if only the settlement check fires just the halt flag is
    set (no order, same position); if the stop-loss fires the pass ends
    halted at level CRITICAL.  The level is LOW exactly when all four
    checks are clean. *)
Theorem risk_checks_act_only_when_tripped
    (expiration buffer_seconds : Z) (w : World) (level : RiskLevel)
    (env : RiskEnv) :
  let position := get_position (redis w) in
  let stop_loss := check_bailout_stop_loss position (risk_book env) in
  let settlement :=
    check_settlement_buffer expiration (risk_utcnow env) buffer_seconds in
  let '(w', level', metrics) :=
    _run_risk_checks expiration buffer_seconds w level env in
  (get_market (redis w) = None ->
   w' = w /\ level' = level /\ metrics = None) /\
  (get_market (redis w) <> None ->
   (stop_loss = false -> settlement = false -> w' = w) /\
   (stop_loss = false -> settlement = true ->
    orders w' = orders w /\ get_position (redis w') = position /\
    is_halted (redis w') = true) /\
   (stop_loss = true -> is_halted (redis w') = true /\ level' = CRITICAL) /\
   (level' = LOW <->
    stop_loss = false /\ settlement = false /\
    check_max_delta position = true /\
    check_liquidity_depth position (risk_book env) = true)).
Proof.
  cbv zeta. unfold _run_risk_checks. cbv zeta.
  destruct (get_market (redis w)) as [market|].
  2:{ split; [intros _; repeat split|intro H; congruence]. }
  destruct (check_bailout_stop_loss (get_position (redis w)) (risk_book env));
    destruct (check_settlement_buffer expiration (risk_utcnow env)
                                      buffer_seconds);
    destruct (check_max_delta (get_position (redis w)));
    destruct (check_liquidity_depth (get_position (redis w)) (risk_book env));
    cbn [_update_risk_level negb orb];
    (split; [discriminate|]); intros _;
    repeat split; try discriminate; try reflexivity;
    try (intros; discriminate);
    try (intros (? & ? & ? & ?); discriminate).
Qed.










(** ** Order book assembly *)

Lemma insert_stable_perm (before : OrderBookEntry -> OrderBookEntry -> bool)
    (x : OrderBookEntry) (l : list OrderBookEntry) :
  Permutation (x :: l) (insert_stable before x l).
Proof.
  induction l as [|y rest IH]; simpl; [reflexivity|].
  destruct (before y x); [|reflexivity].
  rewrite perm_swap. now constructor.
Qed.

Lemma sort_by_acc_perm (before : OrderBookEntry -> OrderBookEntry -> bool)
    (l acc : list OrderBookEntry) :
  Permutation (l ++ acc)
    (fold_left (fun acc x => insert_stable before x acc) l acc).
Proof.
  revert acc. induction l as [|x rest IH]; intro acc; simpl; [reflexivity|].
  rewrite <- IH. rewrite <- insert_stable_perm.
  apply Permutation_middle.
Qed.

Lemma sort_by_perm (before : OrderBookEntry -> OrderBookEntry -> bool)
    (l : list OrderBookEntry) :
  Permutation l (sort_by before l).
Proof.
  unfold sort_by. rewrite <- sort_by_acc_perm. now rewrite app_nil_r.
Qed.

Lemma insert_stable_ordered
    (before : OrderBookEntry -> OrderBookEntry -> bool)
    (x : OrderBookEntry) (l : list OrderBookEntry) :
  (forall a b, before a b = false -> before b a = true) ->
  (forall a b c, before a b = true -> before b c = true -> before a c = true) ->
  ordered before l -> ordered before (insert_stable before x l).
Proof.
  intros Htot Htrans. induction l as [|y rest IH]; intro Ho; simpl.
  - split; [constructor|exact I].
  - destruct Ho as [Hy Hrest]. destruct (before y x) eqn:E.
    + simpl. split; [|now apply IH].
      apply (Permutation_Forall (insert_stable_perm before x rest)).
      constructor; assumption.
    + apply Htot in E. simpl. split; [|split; assumption].
      constructor; [exact E|].
      eapply Forall_impl; [|exact Hy].
      intros z Hz. now apply (Htrans x y z).
Qed.

Lemma sort_by_ordered (before : OrderBookEntry -> OrderBookEntry -> bool)
    (l : list OrderBookEntry) :
  (forall a b, before a b = false -> before b a = true) ->
  (forall a b c, before a b = true -> before b c = true -> before a c = true) ->
  ordered before (sort_by before l).
Proof.
  intros Htot Htrans. unfold sort_by.
  assert (G : forall acc, ordered before acc ->
                ordered before
                  (fold_left (fun acc x => insert_stable before x acc) l acc)).
  { induction l as [|x rest IH]; intros acc Ha; simpl; [exact Ha|].
    apply IH. now apply insert_stable_ordered. }
  apply G. exact I.
Qed.

Lemma price_ascending_total (a b : OrderBookEntry) :
  price_ascending a b = false -> price_ascending b a = true.
Proof.
  unfold price_ascending. intro H. apply Qle_bool_iff.
  destruct (Qlt_le_dec (price a) (price b)) as [L|L]; [|exact L].
  assert (T : Qle_bool (price a) (price b) = true)
    by (apply Qle_bool_iff; lra).
  congruence.
Qed.

Lemma price_ascending_trans (a b c : OrderBookEntry) :
  price_ascending a b = true -> price_ascending b c = true ->
  price_ascending a c = true.
Proof.
  unfold price_ascending. rewrite !Qle_bool_iff. intros. lra.
Qed.

Lemma price_descending_total (a b : OrderBookEntry) :
  price_descending a b = false -> price_descending b a = true.
Proof.
  unfold price_descending. intro H. apply Qle_bool_iff.
  destruct (Qlt_le_dec (price b) (price a)) as [L|L]; [|exact L].
  assert (T : Qle_bool (price b) (price a) = true)
    by (apply Qle_bool_iff; lra).
  congruence.
Qed.

Lemma price_descending_trans (a b c : OrderBookEntry) :
  price_descending a b = true -> price_descending b c = true ->
  price_descending a c = true.
Proof.
  unfold price_descending. rewrite !Qle_bool_iff. intros. lra.
Qed.

(** The head of a sorted side is its best price. *)
Lemma sorted_head_is_best (before : OrderBookEntry -> OrderBookEntry -> bool)
    (raw : list OrderBookEntry) :
  (forall a, before a a = true) ->
  (forall a b, before a b = false -> before b a = true) ->
  (forall a b c, before a b = true -> before b c = true -> before a c = true) ->
  (raw = [] /\ sort_by before raw = []) \/
  exists top rest,
    sort_by before raw = top :: rest /\ In top raw /\
    forall e, In e raw -> before top e = true.
Proof.
  intros Hrefl Htot Htrans.
  pose proof (sort_by_perm before raw) as P.
  pose proof (sort_by_ordered before raw Htot Htrans) as O.
  destruct (sort_by before raw) as [|top rest] eqn:E.
  - left. split; [|reflexivity]. now apply Permutation_nil. 
  - right. exists top, rest. split; [reflexivity|].
    split; [apply (Permutation_in _ (Permutation_sym P)); now left|].
    intros e He. apply (Permutation_in _ P) in He.
    destruct O as [Ht _]. destruct He as [<-|He]; [apply Hrefl|].
    rewrite Forall_forall in Ht. now apply Ht.
Qed.

(** The book the client assembles holds on each side exactly the entries
    the venue returned (none for a failed response), reordered; the best
    ask read by the core is the lowest ask price returned, the best bid the
    highest bid price returned, and an ask side shows no best price only
    when the venue returned nothing for it. *)
Theorem order_book_best_prices
    (yb ya nb na : option (list OrderBookEntry)) :
  let ob := get_market_order_book yb ya nb na in
  Permutation (parse_book yb) (yes_bids ob) /\
  Permutation (parse_book ya) (yes_asks ob) /\
  Permutation (parse_book nb) (no_bids ob) /\
  Permutation (parse_book na) (no_asks ob) /\
  (forall e, In e (parse_book ya) ->
     exists a, get_best_ask_yes ob = Some a /\ a <= price e) /\
  (forall e, In e (parse_book na) ->
     exists a, get_best_ask_no ob = Some a /\ a <= price e) /\
  (forall e, In e (parse_book yb) ->
     exists b, get_best_bid_yes ob = Some b /\ price e <= b) /\
  (forall e, In e (parse_book nb) ->
     exists b, get_best_bid_no ob = Some b /\ price e <= b) /\
  (get_best_ask_yes ob = None <-> parse_book ya = []) /\
  (get_best_ask_no ob = None <-> parse_book na = []).
Proof.
  cbv zeta. unfold get_market_order_book. cbv zeta.
  unfold get_best_ask_yes, get_best_ask_no, get_best_bid_yes, get_best_bid_no.
  cbn [yes_bids yes_asks no_bids no_asks].
  assert (Ra : forall a, price_ascending a a = true)
    by (intro a; apply Qle_bool_iff; lra).
  assert (Rd : forall a, price_descending a a = true)
    by (intro a; apply Qle_bool_iff; lra).
  assert (A : forall raw e, In e raw ->
            exists a, best_price (sort_by price_ascending raw) = Some a /\
                      a <= price e).
  { intros raw e He.
    destruct (sorted_head_is_best price_ascending raw Ra
                price_ascending_total price_ascending_trans)
      as [[-> _]|(top & rest & -> & _ & Hmin)]; [contradiction|].
    exists (price top). split; [reflexivity|].
    apply Qle_bool_iff. now apply Hmin. }
  assert (B : forall raw e, In e raw ->
            exists b, best_price (sort_by price_descending raw) = Some b /\
                      price e <= b).
  { intros raw e He.
    destruct (sorted_head_is_best price_descending raw Rd
                price_descending_total price_descending_trans)
      as [[-> _]|(top & rest & -> & _ & Hmax)]; [contradiction|].
    exists (price top). split; [reflexivity|].
    apply Qle_bool_iff. now apply Hmax. }
  assert (N : forall raw,
            best_price (sort_by price_ascending raw) = None <-> raw = []).
  { intro raw.
    destruct (sorted_head_is_best price_ascending raw Ra
                price_ascending_total price_ascending_trans)
      as [[-> ->]|(top & rest & -> & Hin & _)].
    - split; reflexivity.
    - split; [discriminate|]. intros ->. contradiction. }
  repeat split; try apply sort_by_perm; try apply A; try apply B;
    try apply N.
Qed.

(** ** Halting *)




(** ** The scan on the assembled book *)

Lemma scan_orders_at_best_ask (current_market : option MarketInfo)
    (w : World) (order_book : OrderBook) (env : TradeEnv) :
  let w' := _scan_and_execute current_market w order_book env in
  w' = w \/
  exists market side paid,
    current_market = Some market /\
    best_ask_of order_book side = Some paid /\
    orders w' =
      orders w ++ [buy_order market side paid (trade_size config)].
Proof.
  cbv zeta. unfold _scan_and_execute. cbv zeta.
  destruct current_market as [market|]; [|left; reflexivity].
  unfold best_ask_of, get_best_ask_yes, get_best_ask_no, best_price.
  destruct (yes_asks order_book) as [|ey ry]; [left; reflexivity|].
  destruct (no_asks order_book) as [|en rn]; [left; reflexivity|].
  cbv beta iota.
  destruct (negb (Decimal.truthy (price ey)) || negb (Decimal.truthy (price en)));
    [left; reflexivity|].
  unfold opportunity_yes, opportunity_no.
  set (p := get_position (redis w)).
  assert (Y : forall c,
            let w' := _execute_opportunity (Some market) w env
                        (mkOpportunity YES (price ey) c) p order_book in
            w' = w \/
            exists market0 side paid,
              Some market = Some market0 /\
              match side with
              | YES => Some (price ey)
              | NO => Some (price en)
              end = Some paid /\
              orders w' =
                orders w ++ [buy_order market0 side paid (trade_size config)]).
  { intro c. cbv zeta.
    destruct (execute_opportunity_cases (Some market) w env
                (mkOpportunity YES (price ey) c) p order_book)
      as [H|(m & Hm & _ & Ho)]; [left; exact H|].
    right. exists m, YES, (price ey). repeat split; assumption. }
  assert (N : forall c,
            let w' := _execute_opportunity (Some market) w env
                        (mkOpportunity NO (price en) c) p order_book in
            w' = w \/
            exists market0 side paid,
              Some market = Some market0 /\
              match side with
              | YES => Some (price ey)
              | NO => Some (price en)
              end = Some paid /\
              orders w' =
                orders w ++ [buy_order market0 side paid (trade_size config)]).
  { intro c. cbv zeta.
    destruct (execute_opportunity_cases (Some market) w env
                (mkOpportunity NO (price en) c) p order_book)
      as [H|(m & Hm & _ & Ho)]; [left; exact H|].
    right. exists m, NO, (price en). repeat split; assumption. }
  destruct (Decimal.ltb (price ey + si_avg_no (calculate_state p))
                        (get_profit_target config));
    destruct (Decimal.ltb (price en + si_avg_yes (calculate_state p))
                          (get_profit_target config));
    cbn [expected_pair_cost].
  - destruct (Decimal.ltb (price ey + si_avg_no (calculate_state p))
                          (price en + si_avg_yes (calculate_state p)));
      [apply Y|apply N].
  - apply Y.
  - apply N.
  - left; reflexivity.
Qed.

Lemma lowest_ask_on_top (raw : list OrderBookEntry) (paid : Q) :
  best_price (sort_by price_ascending raw) = Some paid ->
  (exists e, In e raw /\ price e = paid) /\
  (forall e, In e raw -> paid <= price e).
Proof.
  intro H.
  assert (Ra : forall a, price_ascending a a = true)
    by (intro a; apply Qle_bool_iff; lra).
  destruct (sorted_head_is_best price_ascending raw Ra
              price_ascending_total price_ascending_trans)
    as [[_ E]|(top & rest & E & Hin & Hmin)];
    rewrite E in H; [discriminate|].
  injection H as <-. split; [exists top; split; [exact Hin|reflexivity]|].
  intros e He. apply Qle_bool_iff. now apply Hmin.
Qed.

(** A scan run on the book the client assembles either does nothing or
    places one buy order, and the price it bids is one of the ask prices
    the venue returned for the token it buys, and the lowest of them. *)
Theorem scan_buys_at_lowest_ask (current_market : option MarketInfo)
    (w : World)
    (yb ya nb na : option (list OrderBookEntry)) (env : TradeEnv) :
  let order_book := get_market_order_book yb ya nb na in
  let w' := _scan_and_execute current_market w order_book env in
  let asks := fun side : Side =>
    parse_book match side with YES => ya | NO => na end in
  w' = w \/
  exists market side paid,
    current_market = Some market /\
    orders w' =
      orders w ++ [buy_order market side paid (trade_size config)] /\
    (exists e, In e (asks side) /\ price e = paid) /\
    (forall e, In e (asks side) -> paid <= price e).
Proof.
  cbv zeta.
  destruct (scan_orders_at_best_ask current_market w
              (get_market_order_book yb ya nb na) env)
    as [H|(market & side & paid & Hm & Hb & Ho)]; [left; exact H|].
  right. exists market, side, paid.
  split; [exact Hm|]. split; [exact Ho|].
  destruct side; apply lowest_ask_on_top; exact Hb.
Qed.

End Core.

(** * Properties of the runtime model *)

(** ** The rounding of the context *)

Lemma digits_upto_spec (fuel : nat) (n : Z) :
  (0 < n)%Z -> (n < 2 ^ Z.of_nat fuel)%Z ->
  (1 <= Decimal.digits_upto fuel n /\
   10 ^ (Decimal.digits_upto fuel n - 1) <= n < 10 ^ Decimal.digits_upto fuel n)%Z.
Proof.
  revert n. induction fuel as [|fuel IH]; intros n Hpos Hlt.
  - simpl in Hlt. lia.
  - cbn [Decimal.digits_upto]. destruct (n <? 10)%Z eqn:E.
    + apply Z.ltb_lt in E. simpl. lia.
    + apply Z.ltb_ge in E.
      assert (Hq : (0 < n / 10)%Z) by (apply Z.div_str_pos; lia).
      assert (Hf : (n / 10 < 2 ^ Z.of_nat fuel)%Z).
      { apply Z.div_lt_upper_bound; [lia|].
        rewrite Nat2Z.inj_succ, Z.pow_succ_r in Hlt by lia.
        assert (0 < 2 ^ Z.of_nat fuel)%Z by (apply Z.pow_pos_nonneg; lia).
        lia. }
      destruct (IH (n / 10)%Z Hq Hf) as (H1 & H2 & H3).
      set (k := Decimal.digits_upto fuel (n / 10)) in *.
      pose proof (Z.div_mod n 10 ltac:(lia)) as Hdm.
      pose proof (Z.mod_pos_bound n 10 ltac:(lia)) as Hmb.
      replace (1 + k - 1)%Z with (Z.succ (k - 1)) by lia.
      replace (1 + k)%Z with (Z.succ k) by lia.
      rewrite !Z.pow_succ_r by lia.
      split; [lia|]. split; lia.
Qed.

Lemma digits_spec (n : Z) :
  (0 < n)%Z ->
  (1 <= Decimal.digits n /\
   10 ^ (Decimal.digits n - 1) <= n < 10 ^ Decimal.digits n)%Z.
Proof.
  intro Hpos. unfold Decimal.digits. apply digits_upto_spec; [exact Hpos|].
  rewrite Nat2Z.inj_succ, Z2Nat.id by apply Z.log2_nonneg.
  apply Z.log2_spec. exact Hpos.
Qed.

Lemma pow10_pos (e : Z) : 0 < Decimal.pow10 e.
Proof. apply Qpower_0_lt. reflexivity. Qed.

Lemma pow10_add (a b : Z) :
  Decimal.pow10 (a + b) == Decimal.pow10 a * Decimal.pow10 b.
Proof. apply Qpower_plus. discriminate. Qed.

Lemma pow10_inject (k : Z) :
  (0 <= k)%Z -> inject_Z (10 ^ k) == Decimal.pow10 k.
Proof. intro H. unfold Decimal.pow10. now rewrite Zpower_Qpower. Qed.

Lemma pow10_le (a b : Z) : (a <= b)%Z -> Decimal.pow10 a <= Decimal.pow10 b.
Proof. intro H. apply Qpower_le_compat_l; [exact H|discriminate]. Qed.

Lemma inject_lt (a b : Z) : (a < b)%Z -> inject_Z a < inject_Z b.
Proof. intro H. rewrite <- Zlt_Qlt. exact H. Qed.

Lemma inject_le (a b : Z) : (a <= b)%Z -> inject_Z a <= inject_Z b.
Proof. intro H. rewrite <- Zle_Qle. exact H. Qed.

(** The leading digit of a positive value sits at [adjusted]. *)
Lemma adjusted_spec (q : Q) :
  0 < q ->
  Decimal.pow10 (Decimal.adjusted q) <= q /\
  q < Decimal.pow10 (Decimal.adjusted q + 1).
Proof.
  intro Hq. unfold Decimal.adjusted.
  destruct q as [n d]. cbn [Qnum Qden].
  assert (Hn : (0 < n)%Z).
  { unfold Qlt in Hq. simpl in Hq. lia. }
  destruct (digits_spec n Hn) as (Ln1 & Ln2 & Ln3).
  destruct (digits_spec (Zpos d) ltac:(lia)) as (Ld1 & Ld2 & Ld3).
  set (ln := Decimal.digits n) in *. set (ld := Decimal.digits (Zpos d)) in *.
  assert (En : n # d == inject_Z n / inject_Z (Zpos d)) by apply Qmake_Qdiv.
  assert (Dpos : 0 < inject_Z (Zpos d)) by reflexivity.
  assert (B1 : Decimal.pow10 (ln - 1) <= inject_Z n).
  { rewrite <- pow10_inject by lia. now apply inject_le. }
  assert (B2 : inject_Z n < Decimal.pow10 ln).
  { rewrite <- pow10_inject by lia. now apply inject_lt. }
  assert (B3 : Decimal.pow10 (ld - 1) <= inject_Z (Zpos d)).
  { rewrite <- pow10_inject by lia. now apply inject_le. }
  assert (B4 : inject_Z (Zpos d) < Decimal.pow10 ld).
  { rewrite <- pow10_inject by lia. now apply inject_lt. }
  assert (Lo : Decimal.pow10 (ln - ld - 1) <= n # d).
  { rewrite En. apply Qle_shift_div_l; [exact Dpos|].
    apply Qle_trans with (Decimal.pow10 (ln - ld - 1) * Decimal.pow10 ld).
    - apply Qmult_le_l; [apply pow10_pos|]. apply Qlt_le_weak. exact B4.
    - rewrite <- pow10_add. replace (ln - ld - 1 + ld)%Z with (ln - 1)%Z by lia.
      exact B1. }
  assert (Hi : n # d < Decimal.pow10 (ln - ld + 1)).
  { rewrite En. apply Qlt_shift_div_r; [exact Dpos|].
    apply Qlt_le_trans with (Decimal.pow10 ln); [exact B2|].
    apply Qle_trans with (Decimal.pow10 (ln - ld + 1) * Decimal.pow10 (ld - 1)).
    - rewrite <- pow10_add. replace (ln - ld + 1 + (ld - 1))%Z with ln by lia.
      apply Qle_refl.
    - apply Qmult_le_l; [apply pow10_pos|]. exact B3. }
  destruct (Qle_bool (Decimal.pow10 (ln - ld)) (n # d)) eqn:E.
  - apply Qle_bool_iff in E. split; assumption.
  - assert (Hlt : n # d < Decimal.pow10 (ln - ld)).
    { apply Qnot_le_lt. intro C. apply Qle_bool_iff in C. congruence. }
    split; [exact Lo|].
    replace (ln - ld - 1 + 1)%Z with (ln - ld)%Z by lia. exact Hlt.
Qed.

Lemma round_half_even_spec (m : Q) :
  let c := Decimal.round_half_even m in
  Qabs (inject_Z c - m) <= 1 # 2 /\
  (Qfloor m <= c <= Qfloor m + 1)%Z.
Proof.
  cbv zeta. unfold Decimal.round_half_even.
  pose proof (Qfloor_le m) as Hf. pose proof (Qlt_floor m) as Hc.
  set (f := Qfloor m) in *.
  assert (Hc' : m < inject_Z f + 1).
  { rewrite inject_Z_plus in Hc. exact Hc. }
  assert (I1 : inject_Z (f + 1) == inject_Z f + 1)
    by (rewrite inject_Z_plus; reflexivity).
  destruct (Qcompare (m - inject_Z f) (1 # 2)) eqn:E.
  - apply Qeq_alt in E. destruct (Z.even f).
    + split; [|lia]. apply Qabs_Qle_condition. split; lra.
    + split; [|lia]. apply Qabs_Qle_condition. rewrite I1. split; lra.
  - apply Qlt_alt in E. split; [|lia]. apply Qabs_Qle_condition. split; lra.
  - apply Qgt_alt in E. split; [|lia]. apply Qabs_Qle_condition.
    rewrite I1. split; lra.
Qed.

Lemma round_pos_spec (q : Q) :
  0 < q ->
  let e := (Decimal.adjusted q - (Decimal.prec - 1))%Z in
  0 < Decimal.round_pos q /\
  Qabs (Decimal.round_pos q - q) <= (1 # 2) * Decimal.pow10 e /\
  Decimal.pow10 e <= q * Decimal.pow10 (1 - Decimal.prec).
Proof.
  intros Hq e. unfold Decimal.round_pos. fold e.
  destruct (adjusted_spec q Hq) as [Ha _].
  pose proof (pow10_pos e) as He.
  set (m := q / Decimal.pow10 e).
  assert (Hm : m * Decimal.pow10 e == q).
  { unfold m. field. intro C. rewrite C in He. discriminate. }
  assert (Hlow : Decimal.pow10 (Decimal.prec - 1) <= m).
  { unfold m. apply Qle_shift_div_l; [exact He|].
    rewrite <- pow10_add.
    replace (Decimal.prec - 1 + e)%Z with (Decimal.adjusted q) by (unfold e; lia).
    exact Ha. }
  destruct (round_half_even_spec m) as [Hr Hc].
  set (c := Decimal.round_half_even m) in *.
  assert (Hone : 1 <= m).
  { apply Qle_trans with (Decimal.pow10 (Decimal.prec - 1)); [|exact Hlow].
    apply (pow10_le 0). unfold Decimal.prec. lia. }
  assert (Hf : (1 <= Qfloor m)%Z).
  { change 1%Z with (Qfloor 1). apply Qfloor_resp_le. exact Hone. }
  assert (Hcpos : 0 < inject_Z c).
  { change 0 with (inject_Z 0). apply inject_lt. lia. }
  split; [|split].
  - apply Qmult_lt_0_compat; assumption.
  - assert (E : inject_Z c * Decimal.pow10 e - q ==
                (inject_Z c - m) * Decimal.pow10 e).
    { rewrite <- Hm at 1. ring. }
    rewrite E, Qabs_Qmult, (Qabs_pos (Decimal.pow10 e)) by lra.
    apply Qmult_le_compat_r; [exact Hr|lra].
  - apply Qle_trans with (Decimal.pow10 (Decimal.adjusted q) *
                          Decimal.pow10 (1 - Decimal.prec)).
    + rewrite <- pow10_add.
      replace (Decimal.adjusted q + (1 - Decimal.prec))%Z with e
        by (unfold e; lia).
      apply Qle_refl.
    + apply Qmult_le_compat_r; [exact Ha|]. apply Qlt_le_weak, pow10_pos.
Qed.

(** Rounding keeps the sign and moves a value by at most half a unit in
    its last kept digit. *)
Lemma round_spec (q : Q) :
  (0 < q -> 0 < Decimal.round q) /\
  (q < 0 -> Decimal.round q < 0) /\
  (q == 0 -> Decimal.round q = 0) /\
  Qabs (Decimal.round q - q) <= Qabs q * Decimal.unit_roundoff.
Proof.
  unfold Decimal.round.
  assert (U : Decimal.unit_roundoff ==
              (1 # 2) * Decimal.pow10 (1 - Decimal.prec)) by reflexivity.
  destruct (Qcompare q 0) eqn:E.
  - apply Qeq_alt in E. repeat split; try (intro; lra).
    rewrite E. vm_compute. discriminate.
  - apply Qlt_alt in E.
    assert (Hn : 0 < - q) by lra.
    destruct (round_pos_spec (- q) Hn) as (P1 & P2 & P3).
    repeat split; try (intro; lra).
    rewrite (Qabs_neg q) by lra.
    assert (Es : - Decimal.round_pos (- q) - q ==
                 - (Decimal.round_pos (- q) - - q)) by ring.
    rewrite Es, Qabs_opp, U.
    eapply Qle_trans; [exact P2|]. 
    setoid_replace (- q * ((1 # 2) * Decimal.pow10 (1 - Decimal.prec)))
      with ((1 # 2) * (- q * Decimal.pow10 (1 - Decimal.prec))) by ring.
    apply Qmult_le_l; [reflexivity|exact P3].
  - apply Qgt_alt in E.
    destruct (round_pos_spec q E) as (P1 & P2 & P3).
    repeat split; try (intro; lra).
    rewrite (Qabs_pos q) by lra. rewrite U.
    eapply Qle_trans; [exact P2|].
    setoid_replace (q * ((1 # 2) * Decimal.pow10 (1 - Decimal.prec)))
      with ((1 # 2) * (q * Decimal.pow10 (1 - Decimal.prec))) by ring.
    apply Qmult_le_l; [reflexivity|exact P3].
Qed.

Lemma round_half_even_integer (m : Q) (z : Z) :
  m == inject_Z z -> Decimal.round_half_even m = z.
Proof.
  intro H. unfold Decimal.round_half_even.
  assert (F : Qfloor m = z) by (rewrite H; apply Qfloor_Z).
  rewrite F.
  assert (C : Qcompare (m - inject_Z z) (1 # 2) = Lt).
  { apply (proj1 (Qlt_alt _ _)). rewrite H.
    setoid_replace (inject_Z z - inject_Z z) with 0 by ring. reflexivity. }
  now rewrite C.
Qed.

(** A positive value that fits the precision is left as it is. *)
Lemma round_pos_exact (q : Q) (c x : Z) :
  (0 < c < 10 ^ Decimal.prec)%Z ->
  q == inject_Z c * Decimal.pow10 x ->
  Decimal.round_pos q == q.
Proof.
  intros [Hc0 Hc1] Hq.
  assert (Hpos : 0 < q).
  { rewrite Hq. apply Qmult_lt_0_compat; [|apply pow10_pos].
    change 0 with (inject_Z 0). now apply inject_lt. }
  destruct (adjusted_spec q Hpos) as [Ha _].
  unfold Decimal.round_pos.
  set (e := (Decimal.adjusted q - (Decimal.prec - 1))%Z).
  assert (Hlt : q < Decimal.pow10 (Decimal.prec + x)).
  { rewrite Hq, pow10_add. apply Qmult_lt_compat_r; [apply pow10_pos|].
    rewrite <- pow10_inject by (unfold Decimal.prec; lia).
    now apply inject_lt. }
  assert (Hex : (e <= x)%Z).
  { assert (L : Decimal.pow10 (Decimal.adjusted q) <
                Decimal.pow10 (Decimal.prec + x))
      by (eapply Qle_lt_trans; eassumption).
    apply Qpower_lt_compat_l_inv in L; [|reflexivity].
    unfold e. lia. }
  pose proof (pow10_pos e) as He.
  assert (Hm : q / Decimal.pow10 e == inject_Z (c * 10 ^ (x - e))).
  { rewrite inject_Z_mult, pow10_inject by lia. rewrite Hq.
    replace x with ((x - e) + e)%Z at 1 by lia. rewrite pow10_add.
    field. intro C. rewrite C in He. discriminate. }
  rewrite (round_half_even_integer _ _ Hm).
  rewrite inject_Z_mult, pow10_inject by lia.
  rewrite Hq. replace x with ((x - e) + e)%Z at 2 by lia.
  rewrite pow10_add. ring.
Qed.

Lemma Qopp_opp_eq (q : Q) : - - q = q.
Proof. destruct q as [n d]. unfold Qopp. simpl. now rewrite Z.opp_involutive. Qed.

(** Rounding is odd. *)
Lemma round_opp (q : Q) : Decimal.round (- q) == - Decimal.round q.
Proof.
  unfold Decimal.round.
  destruct (Qcompare q 0) eqn:E.
  - apply Qeq_alt in E.
    assert (C : Qcompare (- q) 0 = Eq) by (apply (proj1 (Qeq_alt _ _)); lra).
    rewrite C. reflexivity.
  - apply Qlt_alt in E.
    assert (C : Qcompare (- q) 0 = Gt) by (apply (proj1 (Qgt_alt _ _)); lra).
    rewrite C. ring.
  - apply Qgt_alt in E.
    assert (C : Qcompare (- q) 0 = Lt) by (apply (proj1 (Qlt_alt _ _)); lra).
    rewrite C, Qopp_opp_eq. reflexivity.
Qed.

(** A value with at most 28 significant digits is left as it is: the
    operations are exact whenever their exact result fits. *)
Lemma round_exact (q : Q) (c x : Z) :
  (Z.abs c < 10 ^ Decimal.prec)%Z ->
  q == inject_Z c * Decimal.pow10 x ->
  Decimal.round q == q.
Proof.
  intros Hc Hq.
  pose proof (pow10_pos x) as Hx.
  destruct (Z.lt_trichotomy c 0) as [Hn|[Hz|Hp]].
  - assert (Hq' : - q == inject_Z (- c) * Decimal.pow10 x).
    { rewrite inject_Z_opp, Hq. ring. }
    assert (R : Decimal.round_pos (- q) == - q).
    { apply (round_pos_exact _ (- c)%Z x); [lia|exact Hq']. }
    assert (Hneg : q < 0).
    { assert (0 < - q); [|lra].
      rewrite Hq'. apply Qmult_lt_0_compat; [|exact Hx].
      change 0 with (inject_Z 0). apply inject_lt. lia. }
    unfold Decimal.round.
    assert (C : Qcompare q 0 = Lt) by now apply (proj1 (Qlt_alt _ _)).
    rewrite C, R. ring.
  - subst c. assert (Z0 : q == 0) by (rewrite Hq; ring).
    unfold Decimal.round.
    assert (C : Qcompare q 0 = Eq) by now apply (proj1 (Qeq_alt _ _)).
    rewrite C. now rewrite Z0.
  - assert (R : Decimal.round_pos q == q).
    { apply (round_pos_exact _ c x); [lia|exact Hq]. }
    assert (Hpos : 0 < q).
    { rewrite Hq. apply Qmult_lt_0_compat; [|exact Hx].
      change 0 with (inject_Z 0). apply inject_lt. lia. }
    unfold Decimal.round.
    assert (C : Qcompare q 0 = Gt) by now apply (proj1 (Qgt_alt _ _)).
    rewrite C. exact R.
Qed.

(** ** The position update *)

Lemma runtime_update_returns (stack_room : nat) (r : Redis)
    (conflicts : list Position) (side : Side) (dq dc : Q) :
  (List.length conflicts <= stack_room)%nat ->
  let r0 := after_conflicts r conflicts in
  let p := Runtime.Position_init
             (Runtime.add_primaries side dq dc (Runtime.get_position r0)) in
  Runtime.update_position_atomic stack_room r conflicts side dq dc =
  (set_position r0 p, Some p, List.length conflicts).
Proof.
  revert stack_room r.
  induction conflicts as [|other later IH]; intros stack_room r Hlen.
  - reflexivity.
  - destruct stack_room as [|room]; [simpl in Hlen; lia|].
    cbn [Runtime.update_position_atomic].
    rewrite IH by (simpl in Hlen; lia). reflexivity.
Qed.

Lemma runtime_update_exhausts (stack_room : nat) (r : Redis)
    (conflicts : list Position) (side : Side) (dq dc : Q) :
  (stack_room < List.length conflicts)%nat ->
  Runtime.update_position_atomic stack_room r conflicts side dq dc =
  (after_conflicts r (firstn (S stack_room) conflicts), None, stack_room).
Proof.
  revert stack_room r.
  induction conflicts as [|other later IH]; intros stack_room r Hlen.
  - simpl in Hlen. lia.
  - destruct stack_room as [|room].
    + cbn [Runtime.update_position_atomic]. reflexivity.
    + cbn [Runtime.update_position_atomic].
      rewrite IH by (simpl in Hlen; lia). reflexivity.
Qed.


Lemma round_zero (q : Q) : q == 0 -> Decimal.round q = 0.
Proof. apply round_spec. Qed.

Lemma runtime_locked_profit_clipped (qy qn pc : Q) :
  Runtime.calculate_locked_profit qy qn pc =
  Decimal.mul (Decimal.max 0 (Decimal.min qy qn))
              (Decimal.max 0 (Decimal.sub 1.00 pc)).
Proof.
  unfold Runtime.calculate_locked_profit. cbv zeta.
  set (m := Decimal.min qy qn).
  unfold Decimal.max, Decimal.mul.
  destruct (Decimal.ltb 0 m) eqn:Em; cbn [andb].
  - destruct (Decimal.ltb pc 1.00) eqn:Ep.
    + apply ltb_lt in Ep.
      assert (Hs : 0 < Decimal.sub 1.00 pc).
      { unfold Decimal.sub. apply round_spec. lra. }
      apply ltb_lt in Hs. rewrite Hs. reflexivity.
    + apply ltb_ge in Ep.
      assert (Hs : Decimal.sub 1.00 pc <= 0).
      { unfold Decimal.sub.
        destruct (Qlt_le_dec (1.00 - pc) 0) as [L|L].
        - apply Qlt_le_weak. now apply round_spec.
        - rewrite (round_zero (1.00 - pc)) by lra. apply Qle_refl. }
      apply ltb_ge in Hs. rewrite Hs.
      symmetry. apply round_zero. ring.
  - symmetry. apply round_zero. ring.
Qed.

(** C1 (amended).  When the conflicts met fit the stack, the call returns
    the position it persisted.  Relative to the position read by the
    committing attempt, the quantity and cost of [side] are the decimal
    sums with the two deltas, that is the exact sums rounded to 28
    significant digits: within a relative 5E-28 of them, and equal to them
    whenever the exact sum has at most 28 digits; the primaries
    of the other side are unchanged; and the derived fields are recomputed
    from the new primaries in decimal arithmetic: each average is
    cost / qty when qty > 0 and 0 otherwise, pair_cost = avg_yes + avg_no,
    delta = qty_yes - qty_no and
    locked_profit = max(0, min(qty_yes, qty_no)) * max(0, 1 - pair_cost). *)
Theorem update_position_atomic_recomputes_rounded
    (stack_room : nat) (r : Redis) (conflicts : list Position)
    (side : Side) (dq dc : Q) :
  (List.length conflicts <= stack_room)%nat ->
  let old := Runtime.get_position (after_conflicts r conflicts) in
  let '(r', result, _) :=
    Runtime.update_position_atomic stack_room r conflicts side dq dc in
  exists p,
    result = Some p /\
    POSITION_KEY r' = Some p /\
    qty_of side p = Decimal.add (qty_of side old) dq /\
    cost_of side p = Decimal.add (cost_of side old) dc /\
    Qabs (qty_of side p - (qty_of side old + dq)) <=
      Qabs (qty_of side old + dq) * Decimal.unit_roundoff /\
    Qabs (cost_of side p - (cost_of side old + dc)) <=
      Qabs (cost_of side old + dc) * Decimal.unit_roundoff /\
    (forall c x : Z,
       (Z.abs c < 10 ^ Decimal.prec)%Z ->
       qty_of side old + dq == inject_Z c * Decimal.pow10 x ->
       qty_of side p == qty_of side old + dq) /\
    (forall c x : Z,
       (Z.abs c < 10 ^ Decimal.prec)%Z ->
       cost_of side old + dc == inject_Z c * Decimal.pow10 x ->
       cost_of side p == cost_of side old + dc) /\
    qty_of (opposite side) p = qty_of (opposite side) old /\
    cost_of (opposite side) p = cost_of (opposite side) old /\
    (forall s,
       (0 < qty_of s p /\
        avg_of s p = Decimal.div (cost_of s p) (qty_of s p)) \/
       (qty_of s p <= 0 /\ avg_of s p = 0)) /\
    pair_cost p = Decimal.add (avg_yes p) (avg_no p) /\
    delta p = Decimal.sub (qty_yes p) (qty_no p) /\
    locked_profit p =
      Decimal.mul (Decimal.max 0 (Decimal.min (qty_yes p) (qty_no p)))
                  (Decimal.max 0 (Decimal.sub 1.00 (pair_cost p))).
Proof.
  intro Hlen. cbv zeta.
  rewrite (runtime_update_returns _ _ _ _ _ _ Hlen). cbv zeta.
  set (old := Runtime.get_position (after_conflicts r conflicts)).
  eexists. split; [reflexivity|]. split; [reflexivity|].
  split; [destruct side; reflexivity|].
  split; [destruct side; reflexivity|].
  split; [destruct side; apply round_spec|].
  split; [destruct side; apply round_spec|].
  split; [destruct side; intros c x Hc He; exact (round_exact _ c x Hc He)|].
  split; [destruct side; intros c x Hc He; exact (round_exact _ c x Hc He)|].
  split; [destruct side; reflexivity|].
  split; [destruct side; reflexivity|].
  split.
  - intros [|]; cbn [qty_of cost_of avg_of Runtime.Position_init
                     qty_yes cost_yes avg_yes qty_no cost_no avg_no];
      unfold Runtime.calculate_averages.
    + match goal with
      | |- context [Decimal.ltb 0 ?q] =>
          destruct (Decimal.ltb 0 q) eqn:E
      end.
      * left. split; [now apply ltb_lt|reflexivity].
      * right. split; [now apply ltb_ge|reflexivity].
    + match goal with
      | |- context [Decimal.ltb 0 ?q] =>
          destruct (Decimal.ltb 0 q) eqn:E
      end.
      * left. split; [now apply ltb_lt|reflexivity].
      * right. split; [now apply ltb_ge|reflexivity].
  - split; [reflexivity|]. split; [reflexivity|].
    apply runtime_locked_profit_clipped.
Qed.

(** ** The accumulator *)

(** C3 (amended).  When both candidates exist, the scan hands the YES
    candidate to [_execute_opportunity] if its expected pair cost, as the
    code computes it in decimal arithmetic, is strictly lower, and the NO
    candidate otherwise, ties included. *)
Theorem scan_prefers_lower_decimal_cost_ties_to_NO
    (json_dumps : Trade -> string) (config : Config) (stack_room : nat)
    (market : MarketInfo) (w : World) (order_book : OrderBook)
    (env : TradeEnv) (ask_yes ask_no : Q) :
  let position := Runtime.get_position (redis w) in
  let avg_yes := si_avg_yes (Runtime.calculate_state position) in
  let avg_no := si_avg_no (Runtime.calculate_state position) in
  let target := Runtime.get_profit_target config in
  let pair_yes := Decimal.add ask_yes avg_no in
  let pair_no := Decimal.add ask_no avg_yes in
  let oy := mkOpportunity YES ask_yes pair_yes in
  let on := mkOpportunity NO ask_no pair_no in
  get_best_ask_yes order_book = Some ask_yes ->
  get_best_ask_no order_book = Some ask_no ->
  ~ ask_yes == 0 -> ~ ask_no == 0 ->
  pair_yes < target ->
  pair_no < target ->
  (pair_yes < pair_no ->
   Runtime._scan_and_execute json_dumps config stack_room (Some market)
     w order_book env =
   Runtime._execute_opportunity json_dumps config stack_room (Some market)
     w env oy position order_book) /\
  (pair_no <= pair_yes ->
   Runtime._scan_and_execute json_dumps config stack_room (Some market)
     w order_book env =
   Runtime._execute_opportunity json_dumps config stack_room (Some market)
     w env on position order_book).
Proof.
  cbv zeta. intros Hy Hn Hzy Hzn Hoy Hon.
  unfold get_best_ask_yes, get_best_ask_no, best_price in Hy, Hn.
  destruct (yes_asks order_book) as [|ey ry] eqn:Ey; [discriminate|].
  destruct (no_asks order_book) as [|en rn] eqn:En; [discriminate|].
  injection Hy as <-. injection Hn as <-.
  unfold Runtime._scan_and_execute, get_best_ask_yes, get_best_ask_no,
    best_price.
  rewrite Ey, En. cbv beta iota zeta.
  apply truthy_true in Hzy. apply truthy_true in Hzn.
  rewrite Hzy, Hzn. cbn [negb orb].
  unfold Runtime.opportunity_yes, Runtime.opportunity_no.
  apply ltb_lt in Hoy. apply ltb_lt in Hon.
  rewrite Hoy, Hon. cbn [expected_pair_cost].
  split; intro H.
  - apply ltb_lt in H. now rewrite H.
  - apply ltb_ge in H. now rewrite H.
Qed.

(** ** The equalizer *)

Lemma runtime_execute_trade_orders (json_dumps : Trade -> string)
    (stack_room : nat) (current_market : option MarketInfo)
    (w : World) (env : TradeEnv) (side : Side) (price qty : Q) :
  orders (fst (Runtime.execute_trade json_dumps stack_room current_market
                 w env side price qty)) =
  orders w ++
  match current_market with
  | Some market => [buy_order market side price qty]
  | None => []
  end.
Proof.
  unfold Runtime.execute_trade.
  destruct current_market as [market|]; [|simpl; now rewrite app_nil_r].
  cbv zeta.
  destruct (negb (order_id_truthy (venue_order_id env)));
    [destruct side; reflexivity|].
  destruct (Runtime.update_position_atomic stack_room _ _ _ _ _)
    as [[r result] depth].
  destruct result; destruct side; reflexivity.
Qed.

Lemma runtime_rebalance_loop_orders (json_dumps : Trade -> string)
    (stack_room : nat) (current_market : option MarketInfo)
    (envs : list LoopEnv) (lagging_side : Side) (bid_price chunk_size : Q) :
  forall (w : World) (remaining : Q),
  exists placed,
    orders (Runtime.rebalance_loop json_dumps stack_room current_market envs
              w lagging_side bid_price chunk_size remaining) =
    orders w ++ placed /\
    Forall (fun o => o_price o = bid_price /\ o_side o = BUY /\
                     o_post_only o = true) placed.
Proof.
  induction envs as [|e later IH]; intros w remaining.
  - exists []. split; [simpl; now rewrite app_nil_r|constructor].
  - cbn [Runtime.rebalance_loop].
    destruct (Decimal.ltb 0 remaining && is_running e).
    2:{ exists []. split; [now rewrite app_nil_r|constructor]. }
    pose proof (runtime_execute_trade_orders json_dumps stack_room
                  current_market w (loop_trade e) lagging_side bid_price
                  (Decimal.min remaining chunk_size)) as Ho.
    destruct (Runtime.execute_trade json_dumps stack_room current_market w
                (loop_trade e) lagging_side bid_price
                (Decimal.min remaining chunk_size)) as [w1 trade].
    cbn [fst] in Ho.
    assert (Hnew : Forall (fun o => o_price o = bid_price /\ o_side o = BUY /\
                                    o_post_only o = true)
                     match current_market with
                     | Some market =>
                         [buy_order market lagging_side bid_price
                            (Decimal.min remaining chunk_size)]
                     | None => []
                     end).
    { destruct current_market; repeat constructor. }
    destruct trade as [t|].
    + destruct (IH w1 (Decimal.sub remaining
                         (Decimal.min remaining chunk_size)))
        as (placed & Hp & Hf).
      eexists. split; [rewrite Hp, Ho, <- app_assoc; reflexivity|].
      apply Forall_app. split; assumption.
    + destruct (IH w1 remaining) as (placed & Hp & Hf).
      eexists. split; [rewrite Hp, Ho, <- app_assoc; reflexivity|].
      apply Forall_app. split; assumption.
Qed.

(** C5 (amended).  For every invocation of [_rebalance_position], with
    [max_price] the decimal difference [0.99 - opposite_avg]: when
    [max_price] is not positive, which is when the exact difference is
    not, nothing is placed and the world is unchanged; otherwise every
    order placed is a buy at [bid_price = min(best_ask, max_price)].  The
    bid is at most the ask and at most [max_price], and [max_price] is the
    exact difference rounded to 28 significant digits, so that
    [bid_price + opposite_avg] stays below
    [0.99 + 5E-28 * (0.99 - opposite_avg)]; it need not stay below 0.99. *)
Theorem rebalance_bid_within_rounded_ceiling
    (json_dumps : Trade -> string) (config : Config) (stack_room : nat)
    (current_market : option MarketInfo) (w : World) (envs : list LoopEnv)
    (lagging_side : Side) (target_qty : Q) (position : Position)
    (order_book : OrderBook) :
  let state := Runtime.calculate_state position in
  let opposite_avg :=
    match lagging_side with
    | YES => si_avg_no state
    | NO => si_avg_yes state
    end in
  let best_ask :=
    match lagging_side with
    | YES => get_best_ask_yes order_book
    | NO => get_best_ask_no order_book
    end in
  let max_price := Decimal.sub 0.99 opposite_avg in
  let w' := Runtime._rebalance_position json_dumps config stack_room
              current_market w envs lagging_side target_qty position
              order_book in
  (max_price <= 0 <-> 0.99 - opposite_avg <= 0) /\
  (max_price <= 0 -> w' = w) /\
  exists placed,
    orders w' = orders w ++ placed /\
    Forall (fun o =>
              exists ask,
                best_ask = Some ask /\ 0 < max_price /\
                o_side o = BUY /\
                o_price o = Decimal.min ask max_price /\
                o_price o <= ask /\
                o_price o <= max_price /\
                o_price o + opposite_avg <=
                  0.99 + (0.99 - opposite_avg) * Decimal.unit_roundoff)
           placed.
Proof.
  cbv zeta. unfold Runtime._rebalance_position.
  set (state := Runtime.calculate_state position).
  set (opposite_avg :=
         match lagging_side with
         | YES => si_avg_no state
         | NO => si_avg_yes state
         end).
  set (best_ask :=
         match lagging_side with
         | YES => get_best_ask_yes order_book
         | NO => get_best_ask_no order_book
         end).
  assert (E : match lagging_side with
              | YES => (si_avg_no state, get_best_ask_yes order_book)
              | NO => (si_avg_yes state, get_best_ask_no order_book)
              end = (opposite_avg, best_ask))
    by (destruct lagging_side; reflexivity).
  rewrite E. clear E.
  set (max_price := Decimal.sub 0.99 opposite_avg).
  destruct (round_spec (0.99 - opposite_avg)) as (Rpos & Rneg & Rzero & Rerr).
  fold (Decimal.sub 0.99 opposite_avg) in Rpos, Rneg, Rzero, Rerr.
  fold max_price in Rpos, Rneg, Rzero, Rerr.
  assert (Hsign : max_price <= 0 <-> 0.99 - opposite_avg <= 0).
  { split; intro H.
    - apply Qnot_lt_le. intro C. apply Rpos in C. lra.
    - destruct (Qlt_le_dec (0.99 - opposite_avg) 0) as [L|L].
      + apply Rneg in L. lra.
      + rewrite Rzero by lra. apply Qle_refl. }
  split; [exact Hsign|].
  assert (Hnone : exists placed : list Order,
             orders w = orders w ++ placed /\
             Forall (fun o =>
                       exists ask,
                         best_ask = Some ask /\ 0 < max_price /\
                         o_side o = BUY /\
                         o_price o = Decimal.min ask max_price /\
                         o_price o <= ask /\
                         o_price o <= max_price /\
                         o_price o + opposite_avg <=
                           0.99 + (0.99 - opposite_avg) *
                                  Decimal.unit_roundoff) placed)
    by (exists []; split; [now rewrite app_nil_r|constructor]).
  destruct best_ask as [ask|]; [|split; [reflexivity|exact Hnone]].
  destruct (negb (Decimal.truthy ask)); [split; [reflexivity|exact Hnone]|].
  destruct (Qle_bool max_price 0) eqn:Emax;
    [split; [reflexivity|exact Hnone]|].
  assert (Hpos : 0 < max_price).
  { apply Qnot_le_lt. intro H. apply Qle_bool_iff in H. congruence. }
  split; [intro H; lra|].
  assert (Hexact : 0 < 0.99 - opposite_avg).
  { apply Qnot_le_lt. intro C. apply Hsign in C. lra. }
  rewrite (Qabs_pos (0.99 - opposite_avg)) in Rerr by lra.
  apply Qabs_Qle_condition in Rerr. destruct Rerr as [_ Rup].
  destruct (runtime_rebalance_loop_orders json_dumps stack_room
              current_market envs lagging_side
              (Decimal.min ask max_price)
              (Decimal.min target_qty (trade_size config)) w target_qty)
    as (placed & Hp & Hf).
  exists placed. split; [exact Hp|].
  eapply Forall_impl; [|exact Hf].
  intros o (Hprice & Hside & _). exists ask.
  split; [reflexivity|]. split; [exact Hpos|]. split; [exact Hside|].
  split; [exact Hprice|]. rewrite Hprice.
  destruct (min_spec ask max_price) as [[H ->]|[H ->]];
    repeat split; lra.
Qed.

(** ** Further properties under the runtime model *)

(** No lost update.  Two callers read the same store; B commits first, so
    A's EXEC fails and A retries once, which needs room for one nested
    call.  A's result is exactly what running A after B gives: on A's side
    the quantity and cost B left plus A's deltas, in decimal arithmetic,
    and on the other side what B left. *)
Theorem no_lost_update_on_retry (stack_room : nat) (r : Redis)
    (sA : Side) (dqA dcA : Q) (sB : Side) (dqB dcB : Q) :
  let pB := Runtime.Position_init
              (Runtime.add_primaries sB dqB dcB (Runtime.get_position r)) in
  let rB := set_position r pB in
  let '(r', result, depth) :=
    Runtime.update_position_atomic (S stack_room) r [pB] sA dqA dcA in
  Runtime.update_position_atomic (S stack_room) r [] sB dqB dcB =
    (rB, Some pB, O) /\
  depth = 1%nat /\
  (r', result) =
    fst (Runtime.update_position_atomic stack_room rB [] sA dqA dcA) /\
  exists p,
    result = Some p /\
    qty_of sA p = Decimal.add (qty_of sA pB) dqA /\
    cost_of sA p = Decimal.add (cost_of sA pB) dcA /\
    qty_of (opposite sA) p = qty_of (opposite sA) pB /\
    cost_of (opposite sA) p = cost_of (opposite sA) pB.
Proof.
  cbv zeta. cbn [Runtime.update_position_atomic fst].
  split; [reflexivity|]. split; [reflexivity|]. split; [reflexivity|].
  eexists. split; [reflexivity|].
  destruct sA; repeat split.
Qed.

(** What [execute_trade] does once the venue has returned an order id.
    One post-only buy has been sent in any case.  If the conflicts met by
    the position update fit the stack, the position is committed with
    [(side, qty, price * qty)], the cost being the decimal product, on top
    of what the committing attempt read, and the trade returned and logged
    carries the side, price, quantity, order id and market id of the call
    together with the pair cost and delta of the position now stored.  If
    they do not fit, the method returns [None]: the order stands, no trade
    is logged and the position holds the last conflicting write, without
    the fill. *)
Theorem execute_trade_outcomes (json_dumps : Trade -> string)
    (stack_room : nat) (market : MarketInfo) (w : World)
    (env : TradeEnv) (side : Side) (price qty : Q) :
  order_id_truthy (venue_order_id env) = true ->
  let '(w', result) :=
    Runtime.execute_trade json_dumps stack_room (Some market) w env
                          side price qty in
  let stored := Runtime.get_position (redis w') in
  orders w' = orders w ++ [buy_order market side price qty] /\
  MARKET_KEY (redis w') = MARKET_KEY (redis w) /\
  HALT_KEY (redis w') = HALT_KEY (redis w) /\
  ((List.length (conflicts env) <= stack_room)%nat ->
   exists trade,
     result = Some trade /\
     stored =
       Runtime.Position_init
         (Runtime.add_primaries side qty (Decimal.mul price qty)
            (Runtime.get_position
               (after_conflicts (redis w) (conflicts env)))) /\
     trade_side trade = side /\ trade_price trade = price /\
     trade_qty trade = qty /\
     order_id trade = venue_order_id env /\
     trade_market_id trade = market_id market /\
     timestamp trade = utcnow env /\
     resulting_pair_cost trade = pair_cost stored /\
     resulting_delta trade = delta stored /\
     TRADES_KEY (redis w') =
       TRADES_KEY (Runtime.add_trade json_dumps (redis w) trade)) /\
  ((stack_room < List.length (conflicts env))%nat ->
   result = None /\
   TRADES_KEY (redis w') = TRADES_KEY (redis w) /\
   redis w' =
     after_conflicts (redis w) (firstn (S stack_room) (conflicts env))).
Proof.
  intro H. unfold Runtime.execute_trade. rewrite H. cbn [negb].
  cbn [redis place_limit_order].
  destruct (Nat.le_gt_cases (List.length (conflicts env)) stack_room)
    as [Hfit|Hover].
  - rewrite (runtime_update_returns _ _ _ _ _ _ Hfit). cbv zeta.
    destruct (after_conflicts_frame (redis w) (conflicts env))
      as (Ft & Fm & Fh).
    cbn [redis orders].
    split; [destruct side; reflexivity|].
    split; [cbn; exact Fm|]. split; [cbn; exact Fh|].
    split; [|intro; lia]. intros _.
    eexists. split; [reflexivity|].
    destruct side; repeat split; cbn; try assumption;
      unfold Runtime.add_trade; cbn; now rewrite Ft.
  - rewrite (runtime_update_exhausts _ _ _ _ _ _ Hover).
    destruct (after_conflicts_frame (redis w)
                (firstn (S stack_room) (conflicts env)))
      as (Ft & Fm & Fh).
    cbn [redis orders].
    split; [destruct side; reflexivity|].
    split; [exact Fm|]. split; [exact Fh|].
    split; [intro; lia|]. intros _.
    split; [reflexivity|]. split; [exact Ft|reflexivity].
Qed.

(** When both candidates exist and the one selected (YES if its decimal
    expected pair cost is strictly lower, otherwise NO) fails the
    constraints, the scan does nothing: the other candidate is not
    tried. *)
Theorem scan_does_not_try_the_other_side
    (json_dumps : Trade -> string) (config : Config) (stack_room : nat)
    (market : MarketInfo) (w : World) (order_book : OrderBook)
    (env : TradeEnv) (ask_yes ask_no : Q) :
  let position := Runtime.get_position (redis w) in
  let avg_yes := si_avg_yes (Runtime.calculate_state position) in
  let avg_no := si_avg_no (Runtime.calculate_state position) in
  let target := Runtime.get_profit_target config in
  let pair_yes := Decimal.add ask_yes avg_no in
  let pair_no := Decimal.add ask_no avg_yes in
  let selected := if Decimal.ltb pair_yes pair_no then YES else NO in
  get_best_ask_yes order_book = Some ask_yes ->
  get_best_ask_no order_book = Some ask_no ->
  ~ ask_yes == 0 -> ~ ask_no == 0 ->
  pair_yes < target ->
  pair_no < target ->
  Runtime._check_constraints config selected position order_book = false ->
  Runtime._scan_and_execute json_dumps config stack_room (Some market)
    w order_book env = w.
Proof.
  cbv zeta. intros Hy Hn Hzy Hzn Hoy Hon Hc.
  unfold get_best_ask_yes, get_best_ask_no, best_price in Hy, Hn.
  destruct (yes_asks order_book) as [|ey ry] eqn:Ey; [discriminate|].
  destruct (no_asks order_book) as [|en rn] eqn:En; [discriminate|].
  injection Hy as <-. injection Hn as <-.
  unfold Runtime._scan_and_execute, get_best_ask_yes, get_best_ask_no,
    best_price.
  rewrite Ey, En. cbv beta iota zeta.
  apply truthy_true in Hzy. apply truthy_true in Hzn.
  rewrite Hzy, Hzn. cbn [negb orb].
  unfold Runtime.opportunity_yes, Runtime.opportunity_no.
  apply ltb_lt in Hoy. apply ltb_lt in Hon.
  rewrite Hoy, Hon. cbn [expected_pair_cost].
  unfold Runtime._execute_opportunity. revert Hc.
  match goal with
  | |- context [Decimal.ltb ?a ?b] =>
      match a with
      | Decimal.add (price ey) _ => destruct (Decimal.ltb a b)
      end
  end; cbn [opp_side]; intro Hc; now rewrite Hc.
Qed.

(** Every entry listed by [scan_opportunities] is priced at the best ask
    of its side, which is not zero; its expected pair cost is the decimal
    sum of that price and the average of the other side, and is strictly
    below the target; its profit is the decimal difference between the
    target and the expected pair cost, and is strictly positive.  At most
    one entry per side is listed, YES first. *)
Theorem scan_opportunities_sound_rounded (config : Config)
    (position : Position) (order_book : OrderBook) :
  let listed := Runtime.scan_opportunities config position order_book in
  let target := Runtime.get_profit_target config in
  Forall (fun o =>
            best_ask_of order_book (lo_side o) = Some (lo_price o) /\
            ~ lo_price o == 0 /\
            lo_expected_pair_cost o =
              Decimal.add (lo_price o)
                (avg_of (opposite (lo_side o))
                        (Runtime.Position_init position)) /\
            lo_expected_pair_cost o < target /\
            lo_profit o = Decimal.sub target (lo_expected_pair_cost o) /\
            0 < lo_profit o)
         listed /\
  (map lo_side listed = [] \/ map lo_side listed = [YES] \/
   map lo_side listed = [NO] \/ map lo_side listed = [YES; NO]).
Proof.
  cbv zeta. unfold Runtime.scan_opportunities. cbv zeta.
  unfold best_ask_of, get_best_ask_yes, get_best_ask_no, best_price.
  destruct (yes_asks order_book) as [|ey ry];
    [split; [constructor|left; reflexivity]|].
  destruct (no_asks order_book) as [|en rn];
    [cbn [Decimal.opt_truthy negb orb];
     rewrite orb_true_r; split; [constructor|left; reflexivity]|].
  cbn [Decimal.opt_truthy].
  destruct (Decimal.truthy (price ey)) eqn:Ty; cbn [negb orb];
    [|split; [constructor|left; reflexivity]].
  destruct (Decimal.truthy (price en)) eqn:Tn; cbn [negb];
    [|split; [constructor|left; reflexivity]].
  apply truthy_true in Ty. apply truthy_true in Tn.
  set (target := Runtime.get_profit_target config).
  set (s := Runtime.calculate_state position).
  assert (Ay : si_avg_yes s = avg_yes (Runtime.Position_init position))
    by reflexivity.
  assert (An : si_avg_no s = avg_no (Runtime.Position_init position))
    by reflexivity.
  assert (P : forall c, c < target -> 0 < Decimal.sub target c).
  { intros c Hc. unfold Decimal.sub. apply round_spec. lra. }
  destruct (Decimal.ltb (Decimal.add (price ey) (si_avg_no s)) target) eqn:Hy;
    destruct (Decimal.ltb (Decimal.add (price en) (si_avg_yes s)) target)
      eqn:Hn;
    cbn [app map lo_side].
  - apply ltb_lt in Hy. apply ltb_lt in Hn.
    split; [|right; right; right; reflexivity].
    constructor; [|constructor; [|constructor]];
      cbn [lo_side lo_price lo_expected_pair_cost lo_profit opposite avg_of].
    + rewrite <- An. repeat split; auto.
    + rewrite <- Ay. repeat split; auto.
  - apply ltb_lt in Hy.
    split; [|right; left; reflexivity].
    constructor; [|constructor];
      cbn [lo_side lo_price lo_expected_pair_cost lo_profit opposite avg_of].
    rewrite <- An. repeat split; auto.
  - apply ltb_lt in Hn.
    split; [|right; right; left; reflexivity].
    constructor; [|constructor];
      cbn [lo_side lo_price lo_expected_pair_cost lo_profit opposite avg_of].
    rewrite <- Ay. repeat split; auto.
  - split; [constructor|left; reflexivity].
Qed.

Lemma neg_exact (q : Q) : Decimal.round q == q -> Decimal.neg q == - q.
Proof.
  intro H. unfold Decimal.neg. rewrite round_opp, H. reflexivity.
Qed.

(** An accepted liquidation sell of a whole leg at the best bid, the
    conflicts met fitting the stack and the store untouched by others: the
    quantity of the leg becomes [qty + (-qty)] and its cost
    [cost + (-(best_bid * qty))], each operation in decimal arithmetic;
    the quantity is zero whenever the quantity held has at most 28
    significant digits, that is, is left as it is by the rounding.  The
    other side is not touched. *)
Theorem market_sell_primaries_rounded
    (stack_room : nat) (w : World) (env : SellEnv) (token_id : string)
    (side : Side) (top : OrderBookEntry) (rest : list OrderBookEntry) :
  order_book_data env = top :: rest ->
  order_id_truthy (sell_order_id env) = true ->
  sell_conflicts env = [] ->
  let old := Runtime.get_position (redis w) in
  let p := Runtime.get_position
             (redis (Runtime._market_sell stack_room w env token_id
                       (qty_of side old) side)) in
  qty_of side p =
    Decimal.add (qty_of side old) (Decimal.neg (qty_of side old)) /\
  (Decimal.round (qty_of side old) == qty_of side old ->
   qty_of side p = 0) /\
  cost_of side p =
    Decimal.add (cost_of side old)
      (Decimal.neg (Decimal.mul (price top) (qty_of side old))) /\
  qty_of (opposite side) p = qty_of (opposite side) old /\
  cost_of (opposite side) p = cost_of (opposite side) old.
Proof.
  intros Hb Ho Hc. cbv zeta. unfold Runtime._market_sell.
  rewrite Hb, Ho, Hc. cbv zeta.
  cbn [Runtime.update_position_atomic redis place_limit_order orders].
  set (old := Runtime.get_position (redis w)).
  assert (Z : Decimal.round (qty_of side old) == qty_of side old ->
              Decimal.add (qty_of side old) (Decimal.neg (qty_of side old))
              = 0).
  { intro H. unfold Decimal.add. apply round_zero.
    rewrite (neg_exact _ H). ring. }
  destruct side; cbn; repeat split; try exact Z.
Qed.

(** * Worked examples *)

(** C2, witness: a buy of 10 at 0.40 on the NO side of an empty store. *)
Lemma update_position_atomic_sign_witness :
  let '(_, p, _) := update_position_atomic empty_redis [] NO 10 4 in
  0 <= qty_of (opposite NO) p /\
  0 <= cost_of (opposite NO) p /\
  (0 <= qty_of NO p <->
   - qty_of NO (get_position (after_conflicts empty_redis [])) <= 10) /\
  (0 <= cost_of NO p <->
   - cost_of NO (get_position (after_conflicts empty_redis [])) <= 4).
Proof.
  apply (update_position_atomic_sign empty_redis [] NO 10 4);
    vm_compute; discriminate.
Defined.

(** C2, counterexample.  Ten YES shares bought for 4.00 in all (average
    0.40) are liquidated at a best bid of 0.50: every primary was
    non-negative before, and afterwards [cost_yes = 4 - 0.5 * 10 = -1]. *)
Lemma liquidation_negative_cost_counterexample :
  let w := world_with (primaries 10 4 0 0) in
  let sell := mkSellEnv [mkEntry 0.50 100] (Some "sell-1"%string) [] in
  let before := get_position (redis w) in
  let after :=
    get_position (redis (emergency_liquidation sample_market w sell sell)) in
  (0 <= qty_yes before /\ 0 <= cost_yes before /\
   0 <= qty_no before /\ 0 <= cost_no before) /\
  qty_yes after == 0 /\ cost_yes after == -1 /\ cost_yes after < 0.
Proof.
  vm_compute. repeat split; discriminate.
Qed.

(** C7, witness: the cold-start book, the venue returning no order id. *)
Lemma execute_trade_rejected_witness :
  let '(w', result) :=
    execute_trade sample_dumps (Some sample_market) empty_world rejected
                  NO 0.40 10 in
  result = None /\
  redis w' = redis empty_world /\
  get_position (redis w') = get_position (redis empty_world) /\
  TRADES_KEY (redis w') = TRADES_KEY (redis empty_world).
Proof.
  apply (execute_trade_rejected sample_dumps (Some sample_market)
           empty_world rejected NO 0.40 10).
  reflexivity.
Defined.

(** C10, witness: a best YES ask priced at zero. *)
Lemma scan_skips_zero_ask_witness :
  yes_asks zero_ask_book <> [] /\ no_asks zero_ask_book <> [] /\
  _scan_and_execute sample_dumps default_config (Some sample_market)
    empty_world zero_ask_book accepted = empty_world.
Proof.
  apply (scan_skips_zero_ask sample_dumps default_config
           (Some sample_market) empty_world zero_ask_book accepted 0 0.40).
  - reflexivity.
  - reflexivity.
  - left. reflexivity.
Defined.


(** C8, witness: a third trade added to a log of two. *)
Lemma add_trade_bounded_witness :
  let r := set_trades empty_redis
             [(1%Z, "a"%string); (2%Z, "b"%string)] in
  let trade := sample_trade "c" 3 in
  let added := ZSet.zadd (TRADES_KEY r) (sample_dumps trade) (timestamp trade) in
  let kept := TRADES_KEY (add_trade sample_dumps r trade) in
  (List.length kept <= 1000)%nat /\
  ZSet.sorted kept /\
  exists evicted,
    added = evicted ++ kept /\
    List.length evicted = (List.length added - 1000)%nat /\
    Forall (fun e => Forall (fun k => (fst e <= fst k)%Z) kept) evicted.
Proof.
  apply (add_trade_bounded_evicts_oldest sample_dumps
           (set_trades empty_redis [(1%Z, "a"%string); (2%Z, "b"%string)])
           (sample_trade "c" 3)).
  simpl. split; [|split; [constructor|exact I]].
  constructor; [simpl; lia|constructor].
Defined.

(** A full log: the 1001st trade pushes out the entry with timestamp 1,
    and a trade older than everything retained is itself the one dropped. *)
Lemma add_trade_evicts_oldest_example :
  let r := set_trades empty_redis (numbered_log 1000) in
  let newer := add_trade sample_dumps r (sample_trade "new" 1001) in
  let older := add_trade sample_dumps r (sample_trade "old" 0) in
  List.length (TRADES_KEY r) = 1000%nat /\
  List.length (TRADES_KEY newer) = 1000%nat /\
  hd_error (TRADES_KEY newer) = Some (2%Z, member_name 2) /\
  last (TRADES_KEY newer) (0%Z, EmptyString) = (1001%Z, "new"%string) /\
  TRADES_KEY older = TRADES_KEY r.
Proof.
  vm_compute. repeat split.
Qed.

(** ** Scenarios *)

(** Cold start: empty position, YES ask 0.55, NO ask 0.40.  The NO
    candidate is the cheaper one; after the fill [qty_no = 10],
    [cost_no = 4.0], [avg_no = 0.40], [delta = -10], [pair_cost = 0.40],
    and one trade is on the log. *)
Lemma cold_start_buys_NO :
  let w' := _scan_and_execute sample_dumps default_config
              (Some sample_market) empty_world cold_book accepted in
  let p := get_position (redis w') in
  orders w' = [buy_order sample_market NO 0.40 10] /\
  qty_yes p == 0 /\ qty_no p == 10 /\ cost_no p == 4.0 /\
  avg_no p == 0.40 /\ delta p == -10 /\ pair_cost p == 0.40 /\
  get_trade_count (redis w') = 1%nat.
Proof.
  vm_compute. repeat split.
Qed.

(** The tick after the cold start, on the same book: with no YES held,
    [avg_yes] counts as 0, so the NO candidate (0.40) is again cheaper than
    the YES candidate (0.55 + 0.40) and NO is bought a second time. *)
Lemma second_tick_buys_NO_again :
  let w1 := _scan_and_execute sample_dumps default_config
              (Some sample_market) empty_world cold_book accepted in
  let w2 := _scan_and_execute sample_dumps default_config
              (Some sample_market) w1 cold_book accepted in
  let p := get_position (redis w2) in
  orders w2 = [buy_order sample_market NO 0.40 10;
               buy_order sample_market NO 0.40 10] /\
  qty_yes p == 0 /\ qty_no p == 20 /\ delta p == -20.
Proof.
  vm_compute. repeat split.
Qed.

(** Equalizer under the pair-cost ceiling: 30 YES at 0.60 and 10 NO at
    0.35, best NO ask 0.42.  The bid is [min(0.42, 0.99 - 0.60) = 0.39] and
    the first chunk buys 10 NO at that price. *)
Lemma equalizer_bids_below_ceiling :
  let w := world_with (primaries 30 18 10 3.5) in
  let w' := _check_and_rebalance sample_dumps default_config
              (Some sample_market) w lagging_no_book
              [mkLoopEnv true accepted] in
  let p := get_position (redis w') in
  match orders w' with
  | [o] =>
      o_token_id o = token_id_no sample_market /\ o_side o = BUY /\
      o_price o == 0.39 /\ o_size o == 10 /\ o_post_only o = true
  | _ => False
  end /\
  qty_no p == 20 /\ cost_no p == 7.4 /\ delta p == 10.
Proof.
  vm_compute. repeat split.
Qed.

(** Stop-loss: 100 YES and 100 NO bought for 102 in all, both mids at
    0.30; the unrealized loss of 42 exceeds the threshold of 2.04. *)
Lemma stop_loss_triggers_on_crash :
  check_bailout_stop_loss default_config
    (Position_init (primaries 100 60 100 42)) crashed_book = true.
Proof.
  vm_compute. reflexivity.
Qed.

(** ** Instances of the further properties *)

Lemma trade_log_invariant_witness :
  let r := set_trades empty_redis [(1%Z, "a"%string); (2%Z, "b"%string)] in
  let trades := [sample_trade "d" 9; sample_trade "c" 5] in
  let r' := fold_left (add_trade sample_dumps) trades r in
  ZSet.sorted (TRADES_KEY r') /\
  (get_trade_count r' <= 1000)%nat /\
  (get_trade_count r' <= get_trade_count r + List.length trades)%nat /\
  POSITION_KEY r' = POSITION_KEY r /\
  MARKET_KEY r' = MARKET_KEY r /\
  HALT_KEY r' = HALT_KEY r.
Proof.
  apply (trade_log_invariant sample_dumps
           (set_trades empty_redis [(1%Z, "a"%string); (2%Z, "b"%string)])
           [sample_trade "d" 9; sample_trade "c" 5]).
  - simpl. split; [|split; [constructor|exact I]].
    constructor; [simpl; lia|constructor].
  - apply Nat.leb_le. reflexivity.
Defined.

Lemma newest_trade_is_most_recent_witness :
  let r := set_trades empty_redis [(1%Z, "a"%string); (2%Z, "b"%string)] in
  let trade := sample_trade "c" 3 in
  zrevrange (TRADES_KEY (add_trade sample_dumps r trade)) 0 0 =
    [sample_dumps trade] /\
  get_recent_trades sample_loads (add_trade sample_dumps r trade) 1 =
    match sample_loads (sample_dumps trade) with
    | Some decoded => [decoded]
    | None => []
    end.
Proof.
  apply (newest_trade_is_most_recent sample_dumps sample_loads
           (set_trades empty_redis [(1%Z, "a"%string); (2%Z, "b"%string)])
           (sample_trade "c" 3)).
  repeat constructor.
Defined.


Lemma settlement_buffer_is_final_witness :
  is_within_settlement_buffer 1000000000 990000000 60 = true /\
  (forall t, (1000000000 <= t)%Z -> (0 <= 60)%Z ->
             time_to_expiration 1000000000 t = 0%Z /\
             is_within_settlement_buffer 1000000000 t 60 = true).
Proof.
  apply (settlement_buffer_is_final 1000000000 950000000 990000000 60);
    [lia | reflexivity].
Defined.


Lemma rebalance_skips_witness :
  _check_and_rebalance sample_dumps default_config (Some sample_market)
    (world_with (primaries 10 4 10 4)) lagging_no_book
    [mkLoopEnv true accepted] =
  world_with (primaries 10 4 10 4).
Proof.
  apply (rebalance_skips sample_dumps default_config (Some sample_market)
           (world_with (primaries 10 4 10 4)) lagging_no_book
           [mkLoopEnv true accepted]).
  left. reflexivity.
Defined.




(** ** Instances on the runtime model *)

(** The context at work: a sum and a quotient that do not fit 28 digits,
    and a sum that does. *)
Lemma decimal_rounding_examples :
  Decimal.add 3.50 9.345454545454545454545454546 ==
    12.84545454545454545454545455 /\
  Decimal.div 12.10 30 == 0.4033333333333333333333333333 /\
  Decimal.add 0.35 (Decimal.div 6.10 110) ==
    0.4054545454545454545454545454 /\
  Decimal.add 0.30 (Decimal.div 11.60 110) ==
    0.4054545454545454545454545455 /\
  Decimal.add 10 20 == 30.
Proof.
  vm_compute. repeat split.
Qed.

(** C1, witness: an equalizer fill of 10 NO at the capped bid, with room
    for 988 nested retries and none needed. *)
Lemma update_position_atomic_recomputes_rounded_witness :
  let r := redis (world_with lopsided_position) in
  let old := Runtime.get_position (after_conflicts r []) in
  let '(r', result, _) :=
    Runtime.update_position_atomic 988 r [] NO 10
      9.345454545454545454545454546 in
  exists p,
    result = Some p /\
    POSITION_KEY r' = Some p /\
    qty_of NO p = Decimal.add (qty_of NO old) 10 /\
    cost_of NO p =
      Decimal.add (cost_of NO old) 9.345454545454545454545454546 /\
    Qabs (qty_of NO p - (qty_of NO old + 10)) <=
      Qabs (qty_of NO old + 10) * Decimal.unit_roundoff /\
    Qabs (cost_of NO p -
          (cost_of NO old + 9.345454545454545454545454546)) <=
      Qabs (cost_of NO old + 9.345454545454545454545454546) *
      Decimal.unit_roundoff /\
    (forall c x : Z,
       (Z.abs c < 10 ^ Decimal.prec)%Z ->
       qty_of NO old + 10 == inject_Z c * Decimal.pow10 x ->
       qty_of NO p == qty_of NO old + 10) /\
    (forall c x : Z,
       (Z.abs c < 10 ^ Decimal.prec)%Z ->
       cost_of NO old + 9.345454545454545454545454546 ==
         inject_Z c * Decimal.pow10 x ->
       cost_of NO p == cost_of NO old + 9.345454545454545454545454546) /\
    qty_of (opposite NO) p = qty_of (opposite NO) old /\
    cost_of (opposite NO) p = cost_of (opposite NO) old /\
    (forall s,
       (0 < qty_of s p /\
        avg_of s p = Decimal.div (cost_of s p) (qty_of s p)) \/
       (qty_of s p <= 0 /\ avg_of s p = 0)) /\
    pair_cost p = Decimal.add (avg_yes p) (avg_no p) /\
    delta p = Decimal.sub (qty_yes p) (qty_no p) /\
    locked_profit p =
      Decimal.mul (Decimal.max 0 (Decimal.min (qty_yes p) (qty_no p)))
                  (Decimal.max 0 (Decimal.sub 1.00 (pair_cost p))).
Proof.
  apply (update_position_atomic_recomputes_rounded 988
           (redis (world_with lopsided_position)) [] NO 10
           9.345454545454545454545454546).
  simpl. lia.
Defined.

(** C1, counterexample.  Three departures from the claim as first worded.
    Taking one YES share off an empty position gives [qty_yes = -1] with
    [locked_profit = 0], whereas
    [min(qty_yes, qty_no) * max(0, 1 - pair_cost)] is [-1].  Adding a cost
    of 9.345454545454545454545454546 to 3.50 stores
    12.84545454545454545454545455, not the exact sum.  And 30 shares
    costing 12.10 get the average 0.4033333333333333333333333333, which is
    not 12.10 / 30. *)
Lemma locked_profit_and_rounding_counterexample :
  (let '(_, result, _) :=
     Runtime.update_position_atomic 988 empty_redis [] YES (-1) 0 in
   match result with
   | Some p =>
       qty_yes p == -1 /\ qty_no p == 0 /\ pair_cost p == 0 /\
       locked_profit p == 0 /\
       Decimal.min (qty_yes p) (qty_no p) * Decimal.max 0 (1 - pair_cost p)
         == -1
   | None => False
   end) /\
  (let '(_, result, _) :=
     Runtime.update_position_atomic 988
       (redis (world_with lopsided_position)) [] NO 10
       9.345454545454545454545454546 in
   match result with
   | Some p =>
       cost_no p == 12.84545454545454545454545455 /\
       ~ cost_no p == 3.50 + 9.345454545454545454545454546
   | None => False
   end) /\
  (let '(_, result, _) :=
     Runtime.update_position_atomic 988
       (redis (world_with (primaries 20 8.10 0 0))) [] YES 10 4.00 in
   match result with
   | Some p =>
       qty_yes p == 30 /\ cost_yes p == 12.10 /\
       avg_yes p == 0.4033333333333333333333333333 /\
       ~ avg_yes p == cost_yes p / qty_yes p
   | None => False
   end).
Proof.
  vm_compute. repeat split; discriminate.
Qed.

(** C3, witness: 110 shares a side bought for 11.60 and 6.10, asks at 0.35
    and 0.30.  As exact numbers the two expected pair costs agree; the
    decimal sums are 0.4054545454545454545454545454 for YES and
    0.4054545454545454545454545455 for NO. *)
Lemma scan_prefers_lower_decimal_cost_witness :
  let w := world_with recurring_position in
  let position := Runtime.get_position (redis w) in
  let avg_yes := si_avg_yes (Runtime.calculate_state position) in
  let avg_no := si_avg_no (Runtime.calculate_state position) in
  let pair_yes := Decimal.add 0.35 avg_no in
  let pair_no := Decimal.add 0.30 avg_yes in
  (pair_yes < pair_no ->
   Runtime._scan_and_execute sample_dumps default_config 988
     (Some sample_market) w recurring_book accepted =
   Runtime._execute_opportunity sample_dumps default_config 988
     (Some sample_market) w accepted (mkOpportunity YES 0.35 pair_yes)
     position recurring_book) /\
  (pair_no <= pair_yes ->
   Runtime._scan_and_execute sample_dumps default_config 988
     (Some sample_market) w recurring_book accepted =
   Runtime._execute_opportunity sample_dumps default_config 988
     (Some sample_market) w accepted (mkOpportunity NO 0.30 pair_no)
     position recurring_book).
Proof.
  apply (scan_prefers_lower_decimal_cost_ties_to_NO sample_dumps
           default_config 988 sample_market
           (world_with recurring_position) recurring_book accepted
           0.35 0.30);
    vm_compute; first [reflexivity | intro H; discriminate H].
Defined.

(** C3, counterexample.  Empty position, both best asks at 0.40: both
    candidates exist with the same expected pair cost 0.40, and the one
    order the scan sends buys NO, not YES. *)
Lemma tie_goes_to_NO_counterexample :
  let w' := Runtime._scan_and_execute sample_dumps default_config 988
              (Some sample_market) empty_world tied_book accepted in
  Runtime.opportunity_yes default_config 0 0.40 =
    Some (mkOpportunity YES 0.40 (Decimal.add 0.40 0)) /\
  Runtime.opportunity_no default_config 0 0.40 =
    Some (mkOpportunity NO 0.40 (Decimal.add 0.40 0)) /\
  Decimal.add 0.40 0 == 0.40 /\
  orders w' = [buy_order sample_market NO 0.40 10] /\
  orders w' <> [buy_order sample_market YES 0.40 10] /\
  qty_yes (Runtime.get_position (redis w')) == 0 /\
  qty_no (Runtime.get_position (redis w')) == 10.
Proof.
  vm_compute. repeat split; discriminate.
Qed.

(** The scan on [recurring_position]: the exact sums tie, the decimal sums
    do not, and the order sent buys YES at 0.35. *)
Lemma recurring_tie_buys_YES :
  let w := world_with recurring_position in
  let w' := Runtime._scan_and_execute sample_dumps default_config 988
              (Some sample_market) w recurring_book accepted in
  0.35 + 6.10 / 110 == 0.30 + 11.60 / 110 /\
  orders w' = [buy_order sample_market YES 0.35 10].
Proof.
  vm_compute. repeat split.
Qed.

(** C5, counterexample.  110 YES bought for 6.10 against 10 NO, best NO
    ask 0.95: the average of YES is 0.05545454545454545454545454545, the
    bid is 0.9345454545454545454545454546, and bid plus average exceeds
    0.99. *)
Lemma rebalance_bid_exceeds_ceiling_counterexample :
  let w := world_with lopsided_position in
  let w' := Runtime._check_and_rebalance sample_dumps default_config 988
              (Some sample_market) w dear_no_book
              [mkLoopEnv true accepted] in
  let opposite_avg :=
    si_avg_yes (Runtime.calculate_state (Runtime.get_position (redis w))) in
  opposite_avg == 0.05545454545454545454545454545 /\
  match orders w' with
  | [o] =>
      o_token_id o = token_id_no sample_market /\ o_side o = BUY /\
      o_price o == 0.9345454545454545454545454546 /\
      0.99 < o_price o + opposite_avg
  | _ => False
  end.
Proof.
  vm_compute. repeat split.
Qed.


(** An accepted buy of 10 NO at 0.40 on an empty store. *)
Lemma execute_trade_outcomes_witness :
  let '(w', result) :=
    Runtime.execute_trade sample_dumps 988 (Some sample_market) empty_world
                          accepted NO 0.40 10 in
  let stored := Runtime.get_position (redis w') in
  orders w' = orders empty_world ++ [buy_order sample_market NO 0.40 10] /\
  MARKET_KEY (redis w') = MARKET_KEY (redis empty_world) /\
  HALT_KEY (redis w') = HALT_KEY (redis empty_world) /\
  ((List.length (conflicts accepted) <= 988)%nat ->
   exists trade,
     result = Some trade /\
     stored =
       Runtime.Position_init
         (Runtime.add_primaries NO 10 (Decimal.mul 0.40 10)
            (Runtime.get_position
               (after_conflicts (redis empty_world) (conflicts accepted)))) /\
     trade_side trade = NO /\ trade_price trade = 0.40 /\
     trade_qty trade = 10 /\
     order_id trade = venue_order_id accepted /\
     trade_market_id trade = market_id sample_market /\
     timestamp trade = utcnow accepted /\
     resulting_pair_cost trade = pair_cost stored /\
     resulting_delta trade = delta stored /\
     TRADES_KEY (redis w') =
       TRADES_KEY (Runtime.add_trade sample_dumps (redis empty_world) trade)) /\
  ((988 < List.length (conflicts accepted))%nat ->
   result = None /\
   TRADES_KEY (redis w') = TRADES_KEY (redis empty_world) /\
   redis w' =
     after_conflicts (redis empty_world)
       (firstn 989 (conflicts accepted))).
Proof.
  apply (execute_trade_outcomes sample_dumps 988 sample_market empty_world
           accepted NO 0.40 10).
  reflexivity.
Defined.

(** [recurring_position] against a book whose NO asks are thin: the YES
    candidate is selected by one unit in the 28th digit and fails the
    liquidity test on the NO asks; the NO candidate is not tried. *)
Lemma scan_does_not_try_the_other_side_witness :
  Runtime._scan_and_execute sample_dumps default_config 988
    (Some sample_market) (world_with recurring_position)
    recurring_thin_book accepted =
  world_with recurring_position.
Proof.
  apply (scan_does_not_try_the_other_side sample_dumps default_config 988
           sample_market (world_with recurring_position)
           recurring_thin_book accepted 0.35 0.30);
    vm_compute; first [reflexivity | intro H; discriminate H].
Defined.

(** Ten YES shares bought for 4.00 sold at a best bid of 0.50. *)
Lemma market_sell_primaries_rounded_witness :
  let w := world_with (primaries 10 4 0 0) in
  let env := mkSellEnv [mkEntry 0.50 100] (Some "sell-1"%string) [] in
  let old := Runtime.get_position (redis w) in
  let p := Runtime.get_position
             (redis (Runtime._market_sell 988 w env "token-yes"
                       (qty_of YES old) YES)) in
  qty_of YES p =
    Decimal.add (qty_of YES old) (Decimal.neg (qty_of YES old)) /\
  (Decimal.round (qty_of YES old) == qty_of YES old ->
   qty_of YES p = 0) /\
  cost_of YES p =
    Decimal.add (cost_of YES old)
      (Decimal.neg (Decimal.mul 0.50 (qty_of YES old))) /\
  qty_of (opposite YES) p = qty_of (opposite YES) old /\
  cost_of (opposite YES) p = cost_of (opposite YES) old.
Proof.
  apply (market_sell_primaries_rounded 988
           (world_with (primaries 10 4 0 0))
           (mkSellEnv [mkEntry 0.50 100] (Some "sell-1"%string) [])
           "token-yes" YES (mkEntry 0.50 100) []); reflexivity.
Defined.
